(** * diffoci: the image getter ([pkg/imagegetter])

    A shallow embedding of [imagegetter.go]: the orchestrator [Get], the
    daemon loader [loadDocker] with [getDocker] / [getPodman], the helpers
    [Load] and [Pull], and the stream wrapper [readerWithEOF].

    The Go code is sequential and talks to collaborators it does not
    implement (the image store, the content store, the transferrer, the
    operating system).  Every such conversation is a [call]; a Go function
    becomes a finite tree of calls ([Prog]) whose shape follows the control
    flow of the source, and [run] executes a tree against an arbitrary
    handler, returning the result together with the transcript of calls and
    answers in the order they happened. *)

From Stdlib Require Import String List Bool ZArith Lia.
Import ListNotations.
Open Scope string_scope.

Set Implicit Arguments.

(** ** Go errors *)

Module errors.

  (** Package-level error values that the code compares against or returns:
      [errdefs.ErrNotFound], [errdefs.ErrUnavailable], [os.ErrClosed],
      [io.EOF]; [ErrOther] stands for any other error value a collaborator
      may produce. *)
Inductive sentinel : Type :=
  | ErrNotFound
  | ErrUnavailable
  | ErrClosed
  | EOF
  | ErrOther (msg : string).

  (** One constructor per format string of the package, with the arguments
      the format is applied to ([%q] strings, [%v] argument vectors), and
      one for the context of wrapping errors made elsewhere. *)
Inductive message : Type :=
  | FailedToLoad                                   (* "failed to load: %w" *)
  | FailedToPull (ref : string)                    (* "failed to pull %q: %w" *)
  | FailedToParse (rawRef : string)                (* "failed to parse %q: %w" *)
  | FailedToRun (args : list string)               (* "failed to run %v: %w" *)
  | FailedToLoadArchive (args : list string)       (* "failed to load an archive (from %v): %w" *)
  | ShouldHaveLoaded (args : list string)          (* "should have loaded an archive (from %v), but the loaded image is not accessible: %w" *)
  | UnknownPullMode (pullMode : string)            (* "unknown pull mode %q" *)
  | ShouldHavePulled (name : string)               (* "should have pulled %q, but still not accessible in the local store: %w" *)
  | FailedToGetImage (name : string)               (* "failed to get image %q: %w" *)
  | LacksBlobs (name : string)                     (* "image %q lacks blobs for additional platforms: %w" *)
  | Foreign (text : string).                       (* context added outside the package, as by *fs.PathError *)

  (** A non-nil Go [error]: a sentinel, a [fmt.Errorf] without [%w], or a
      [fmt.Errorf] whose [%w] wraps a cause. *)
Inductive error : Type :=
  | Sentinel (s : sentinel)
  | Errorf (m : message)
  | Wrapf (m : message) (cause : error).

Definition sentinel_eqb (a b : sentinel) : bool :=
    match a, b with
    | ErrNotFound, ErrNotFound => true
    | ErrUnavailable, ErrUnavailable => true
    | ErrClosed, ErrClosed => true
    | EOF, EOF => true
    | ErrOther x, ErrOther y => String.eqb x y
    | _, _ => false
    end.

  (** [errors.Is] on a non-nil error: walk the [Unwrap] chain and compare
      each link with the target. *)
Fixpoint chain_Is (err : error) (target : sentinel) : bool :=
    match err with
    | Sentinel s => sentinel_eqb s target
    | Errorf _ => false
    | Wrapf _ cause => chain_Is cause target
    end.

  (** [errors.Is(err, target)] where [err] may be nil. *)
Definition Is (err : option error) (target : sentinel) : bool :=
    match err with
    | None => false
    | Some e => chain_Is e target
    end.

  End errors.
Import errors.

(** A Go [(T, error)] result in which exactly one side is meaningful. *)
Inductive result (A : Type) : Type :=
| Ok (a : A)
| Err (e : error).
Arguments Ok {A} a.
Arguments Err {A} e.

(** ** [strings.HasPrefix] and [strings.TrimPrefix] *)

Module strings.

Definition HasPrefix (s pre : string) : bool := String.prefix pre s.

Definition TrimPrefix (s pre : string) : string :=
    if HasPrefix s pre
    then String.substring (String.length pre) (String.length s - String.length pre) s
    else s.

End strings.

(** ** Data the getter passes around *)

(** [ocispec.Platform]. *)
Record Platform : Type := mkPlatform {
  Architecture : string;
  OS : string;
  OSVersion : string;
  OSFeatures : list string;
  Variant : string
}.

(** [ocispec.Descriptor], reduced to the fields that identify content. *)
Record Descriptor : Type := mkDescriptor {
  MediaType : string;
  Digest : string;
  Size : Z
}.

(** [images.Image]. *)
Record Image : Type := mkImage {
  Name : string;
  Labels : list (string * string);
  Target : Descriptor
}.

(** [io.Reader] values that occur in the package: the pipe returned by
    [dockerCmd.StdoutPipe()], that pipe behind [&readerWithEOF{r}], and the
    stream returned by [compression.DecompressStream]. *)
Inductive Reader : Type :=
| StdoutPipeOf (args : list string)
| WithEOF (r : Reader)
| Decompressed (r : Reader).

(** [transimage.StoreOpt]. *)
Inductive StoreOpt : Type :=
| WithPlatforms (plats : list Platform)
| WithAllMetadata
| WithNamedPrefix (prefix : string) (allowOverwrite : bool).

(** [transimage.NewStore(ref, opts...)]. *)
Record ImageStoreDest : Type := NewStore {
  dest_ref : string;
  dest_opts : list StoreOpt
}.

(** The two transfer sources: [archive.NewImageImportStream(r, mediaType)]
    and [registry.NewOCIRegistry(ref, nil, credHelper)]. *)
Inductive Source : Type :=
| NewImageImportStream (r : Reader) (mediaType : string)
| NewOCIRegistry (ref : string).

(** [platforms.Any(plats...)]. *)
Inductive MatchComparer : Type :=
| platforms_Any (plats : list Platform).

(** Log lines of the package ([log.G(ctx).Infof] / [Debugf]). *)
Inductive logline : Type :=
| LogLoading (name docker : string)         (* "Loading image %q from %q" *)
| LogRunning (args : list string)           (* "Running %v" *)
| LogPulling (name : string)                (* "Pulling %q" *)
| LogPullingAdditional (name : string).     (* "Pulling %q for additional platforms" *)

(** ** Calls to the collaborators *)

Inductive call : Type :=
| Infof (l : logline)
| Debugf (l : logline)
| Getenv (key : string)                              (* os.Getenv *)
| StdoutPipe (args : list string)                    (* dockerCmd.StdoutPipe() *)
| Start (args : list string)                         (* dockerCmd.Start() *)
| Close (args : list string)                         (* r.Close() on the stdout pipe *)
| DecompressStream (tarR : Reader)                   (* compression.DecompressStream *)
| ProgressHandler                                    (* ctrimages.ProgressHandler *)
| ProgressDone                                       (* the [done] it returns *)
| Transfer (src : Source) (dst : ImageStoreDest)     (* transferrer.Transfer *)
| ImageStoreGet (name : string)                      (* g.imageStore.Get *)
| ImagesCheck (target : Descriptor) (platMC : MatchComparer). (* images.Check on g.contentStore *)

(** What each call gives back to the Go code. *)
Definition resp (c : call) : Type :=
  match c with
  | Infof _ | Debugf _ => unit
  | Getenv _ => string
  | StdoutPipe _ | Start _ | Close _ => option error
  | DecompressStream _ => option error
  | ProgressHandler | ProgressDone => unit
  | Transfer _ _ => option error
  | ImageStoreGet _ => result Image
  | ImagesCheck _ _ => (bool * option error)%type
  end.

(** A program: a finite tree of calls ending in a returned value. *)
Inductive Prog (R : Type) : Type :=
| Ret (r : R)
| Vis (c : call) (k : resp c -> Prog R).
Arguments Ret {R} r.
Arguments Vis {R} c k.

Fixpoint bind {A B : Type} (p : Prog A) (f : A -> Prog B) : Prog B :=
  match p with
  | Ret a => f a
  | Vis c k => Vis c (fun x => bind (k x) f)
  end.

Definition perform (c : call) : Prog (resp c) := Vis c (fun x => Ret x).

(** Go's [defer d()]: [d] runs when the body returns, whatever it returns,
    and its own result is dropped. *)
Definition defer {A R : Type} (d : Prog A) (body : Prog R) : Prog R :=
  bind body (fun r => bind d (fun _ => Ret r)).

Declare Scope prog_scope.
Delimit Scope prog_scope with prog.
Notation "x <- p ;; q" := (bind p (fun x => q))
  (at level 100, p at next level, right associativity) : prog_scope.
Notation "p ;; q" := (bind p (fun _ => q))
  (at level 100, right associativity) : prog_scope.
Open Scope prog_scope.

(** ** Running a program *)

(** One entry of a transcript: a call with the answer it got. *)
Record io : Type := IO { io_call : call; io_resp : resp io_call }.

(** A handler answers any call from a world of type [W] and moves the
    world on. *)
Definition handler (W : Type) : Type := forall c : call, W -> resp c * W.

Fixpoint run {W R : Type} (h : handler W) (p : Prog R) (w : W) : R * list io * W :=
  match p with
  | Ret r => (r, [], w)
  | Vis c k =>
      let (x, w1) := h c w in
      let '(r, t, w2) := run h (k x) w1 in
      (r, IO c x :: t, w2)
  end.

(** ** [readerWithEOF] *)

(** What one [Read(p)] gives back: the buffer as the call left it, the
    count [n] and the error (nil is [None]). *)
Record read_result : Type := mkRead {
  rd_buf : list Byte.byte;
  rd_n : Z;
  rd_err : option error
}.

(** The [io.Reader] interface over a reader state [S]. *)
Definition io_Reader (S : Type) : Type := S -> list Byte.byte -> read_result * S.

(** [func (r *readerWithEOF) Read(p []byte) (int, error)]: the embedded
    reader's [Read], with an error that [errors.Is] [os.ErrClosed]
    replaced by [io.EOF]. *)
Definition readerWithEOF_Read {S : Type} (Reader_Read : io_Reader S) : io_Reader S :=
  fun r p =>
    let (res, r') := Reader_Read r p in
    let n := rd_n res in
    let err := rd_err res in
    let err := if errors.Is err ErrClosed then Some (Sentinel EOF) else err in
    (mkRead (rd_buf res) n err, r').

(** ** The package *)

Definition PullMode : Type := string.

Definition PullAlways : PullMode := "always".
Definition PullMissing : PullMode := "missing".
Definition PullNever : PullMode := "never".

Definition dockerImagePrefix : string := "docker://".
Definition podmanImagePrefix : string := "podman://".

Definition isDocker (rawRef : string) : bool :=
  strings.HasPrefix rawRef dockerImagePrefix.

Definition isPodman (rawRef : string) : bool :=
  strings.HasPrefix rawRef podmanImagePrefix.

(** [Load]: decompress the archive stream and import it under
    [foreknownRef]. *)
Definition Load (tarR : Reader) (plats : list Platform) (foreknownRef : string)
  : Prog (option error) :=
  err <- perform (DecompressStream tarR) ;;
  match err with
  | Some e => Ret (Some e)
  | None =>
      let decompressed := Decompressed tarR in
      let iis := NewImageImportStream decompressed "" in
      let sOpts := [ WithPlatforms plats;
                     WithPlatforms plats;
                     WithAllMetadata;
                     WithNamedPrefix "unused" true ] in
      let is_ := NewStore foreknownRef sOpts in
      perform ProgressHandler ;;
      defer (perform ProgressDone)
        (err <- perform (Transfer iis is_) ;;
         match err with
         | Some e => Ret (Some (Wrapf FailedToLoad e))
         | None => Ret None
         end)
  end.

(** [Pull]: copy [ref] from its registry into the store, for [plats]. *)
Definition Pull (ref : string) (plats : list Platform) : Prog (option error) :=
  let reg := NewOCIRegistry ref in
  let sOpts := [ WithPlatforms plats ] in
  let is_ := NewStore ref sOpts in
  perform ProgressHandler ;;
  defer (perform ProgressDone)
    (err <- perform (Transfer reg is_) ;;
     match err with
     | Some e => Ret (Some (Wrapf (FailedToPull ref) e))
     | None => Ret None
     end).

(** [loadDocker] runs [docker save] and loads the result.  The deferred
    [r.Close()] is registered once [StdoutPipe] has succeeded. *)
Definition loadDocker (docker name : string) (plats : list Platform)
  : Prog (result Image) :=
  perform (Infof (LogLoading name docker)) ;;
  let Args := [docker; "save"; name] in
  err <- perform (StdoutPipe Args) ;;
  match err with
  | Some e => Ret (Err e)
  | None =>
      let r := StdoutPipeOf Args in
      defer (perform (Close Args))
        (perform (Debugf (LogRunning Args)) ;;
         err <- perform (Start Args) ;;
         match err with
         | Some e => Ret (Err (Wrapf (FailedToRun Args) e))
         | None =>
         err <- Load (WithEOF r) plats name ;;
         match err with
         | Some e => Ret (Err (Wrapf (FailedToLoadArchive Args) e))
         | None =>
         err <- perform (Close Args) ;;
         match err with
         | Some e => Ret (Err e)
         | None =>
         got <- perform (ImageStoreGet name) ;;
         match got with
         | Err e => Ret (Err (Wrapf (ShouldHaveLoaded Args) e))
         | Ok img =>
         (* Check platforms *)
         let platMC := platforms_Any plats in
         chk <- perform (ImagesCheck (Target img) platMC) ;;
         let (available, err) := chk : bool * option error in
         match err with
         | Some e => Ret (Err e)
         | None =>
         if negb available
         then Ret (Err (Wrapf (LacksBlobs name) (Sentinel ErrUnavailable)))
         else Ret (Ok img)
         end end end end end)
  end.

Section Getter.

  (** [refdocker.ParseDockerRef] and the [String()] of the reference it
      returns belong to containerd, not to this package: they are taken
      as they come. *)
Variable Named : Type.
Variable ParseDockerRef : string -> result Named.
Variable Named_String : Named -> string.

Definition getDocker (rawRef : string) (plats : list Platform) : Prog (result Image) :=
    let rawRefTrimmed := strings.TrimPrefix rawRef dockerImagePrefix in
    match ParseDockerRef rawRefTrimmed with
    | Err err => Ret (Err (Wrapf (FailedToParse rawRefTrimmed) err))
    | Ok ref =>
        let name := Named_String ref in
        docker <- perform (Getenv "DOCKER") ;;
        let docker := if String.eqb docker "" then "docker" else docker in
        loadDocker docker name plats
    end.

Definition getPodman (rawRef : string) (plats : list Platform) : Prog (result Image) :=
    let rawRefTrimmed := strings.TrimPrefix rawRef podmanImagePrefix in
    match ParseDockerRef rawRefTrimmed with
    | Err err => Ret (Err (Wrapf (FailedToParse rawRefTrimmed) err))
    | Ok ref =>
        let name := Named_String ref in
        podman <- perform (Getenv "PODMAN") ;;
        let podman := if String.eqb podman "" then "podman" else podman in
        loadDocker podman name plats
    end.

  (** The [switch pullMode] of [Get]; [Some] is an early return. *)
Definition Get_switch (name : string) (plats : list Platform) (pullMode : PullMode)
    : Prog (option error) :=
    if String.eqb pullMode PullAlways then
      perform (Infof (LogPulling name)) ;;
      err <- Pull name plats ;;
      match err with
      | Some e => Ret (Some (Wrapf (FailedToPull name) e))
      | None => Ret None
      end
    else if String.eqb pullMode PullMissing || String.eqb pullMode PullNever then
      Ret None (* NOP *)
    else
      Ret (Some (Errorf (UnknownPullMode pullMode))).

  (** "Get the image object": the lookup, and the pull with its one
      repeated lookup when the image is not found. *)
Definition Get_image (name : string) (plats : list Platform) (pullMode : PullMode)
    : Prog (result Image) :=
    got <- perform (ImageStoreGet name) ;;
    match got with
    | Ok img => Ret (Ok img)
    | Err err =>
        if chain_Is err ErrNotFound && negb (String.eqb pullMode PullNever) then
          perform (Infof (LogPulling name)) ;;
          pullErr <- Pull name plats ;;
          match pullErr with
          | Some e => Ret (Err (Wrapf (FailedToPull name) e))
          | None =>
              again <- perform (ImageStoreGet name) ;;
              match again with
              | Err retryErr => Ret (Err (Wrapf (ShouldHavePulled name) retryErr))
              | Ok img => Ret (Ok img)
              end
          end
        else Ret (Err (Wrapf (FailedToGetImage name) err))
    end.

  (** "Check platforms": the availability check and the pull for
      additional platforms. *)
Definition Get_platforms (name : string) (plats : list Platform) (pullMode : PullMode)
      (img : Image) : Prog (result Image) :=
    let platMC := platforms_Any plats in
    chk <- perform (ImagesCheck (Target img) platMC) ;;
    let (available, err) := chk : bool * option error in
    match err with
    | Some e => Ret (Err e)
    | None =>
        if negb available then
          if String.eqb pullMode PullNever then
            Ret (Err (Wrapf (LacksBlobs name) (Sentinel ErrUnavailable)))
          else
            perform (Infof (LogPullingAdditional name)) ;;
            err <- Pull name plats ;;
            match err with
            | Some e => Ret (Err (Wrapf (FailedToPull name) e))
            | None => Ret (Ok img)
            end
        else Ret (Ok img)
    end.

  (** [func (g *ImageGetter) Get]. *)
Definition Get (rawRef : string) (plats : list Platform) (pullMode : PullMode)
    : Prog (result Image) :=
    if isDocker rawRef then getDocker rawRef plats
    else if isPodman rawRef then getPodman rawRef plats
    else
      match ParseDockerRef rawRef with
      | Err err => Ret (Err (Wrapf (FailedToParse rawRef) err))
      | Ok ref =>
          let name := Named_String ref in
          stop <- Get_switch name plats pullMode ;;
          match stop with
          | Some e => Ret (Err e)
          | None =>
              got <- Get_image name plats pullMode ;;
              match got with
              | Err e => Ret (Err e)
              | Ok img => Get_platforms name plats pullMode img
              end
          end
      end.

End Getter.

(** ** Reading a transcript *)

Definition calls (t : list io) : list call := map io_call t.

(** A registry pull: a transfer whose source is an OCI registry. *)
Definition is_pull (c : call) : bool :=
  match c with
  | Transfer (NewOCIRegistry _) _ => true
  | _ => false
  end.

(** Any use of the transferrer. *)
Definition is_transfer (c : call) : bool :=
  match c with
  | Transfer _ _ => true
  | _ => false
  end.

(** An archive import: a transfer whose source is an import stream. *)
Definition is_import (c : call) : bool :=
  match c with
  | Transfer (NewImageImportStream _ _) _ => true
  | _ => false
  end.

(** Anything done to the daemon subprocess or its pipe. *)
Definition is_subprocess (c : call) : bool :=
  match c with
  | StdoutPipe _ | Start _ | Close _ => true
  | _ => false
  end.

Definition is_start (c : call) : bool :=
  match c with
  | Start _ => true
  | _ => false
  end.

Definition is_lookup (c : call) : bool :=
  match c with
  | ImageStoreGet _ => true
  | _ => false
  end.

Definition is_check (c : call) : bool :=
  match c with
  | ImagesCheck _ _ => true
  | _ => false
  end.

Definition count (P : call -> bool) (l : list call) : nat :=
  List.length (List.filter P l).

(** The calls made before the first one that satisfies [P]. *)
Fixpoint before_first (P : call -> bool) (l : list call) : list call :=
  match l with
  | [] => []
  | c :: l' => if P c then [] else c :: before_first P l'
  end.

(** The calls made after the first one that satisfies [P]. *)
Fixpoint after_first (P : call -> bool) (l : list call) : list call :=
  match l with
  | [] => []
  | c :: l' => if P c then l' else after_first P l'
  end.

(** The answer of the store when the entry is a lookup. *)
Definition lookup_answer (e : io) : option (result Image) :=
  match e with
  | IO c x =>
      match c return resp c -> option (result Image) with
      | ImageStoreGet _ => fun x => Some x
      | _ => fun _ => None
      end x
  end.

(** The answer of the transferrer when the entry is a registry pull. *)
Definition pull_answer (e : io) : option (option error) :=
  match e with
  | IO c x =>
      match c return resp c -> option (option error) with
      | Transfer (NewOCIRegistry _) _ => fun x => Some x
      | _ => fun _ => None
      end x
  end.

(** The answer of the availability check when the entry is one. *)
Definition check_answer (e : io) : option (bool * option error) :=
  match e with
  | IO c x =>
      match c return resp c -> option (bool * option error) with
      | ImagesCheck _ _ => fun x => Some x
      | _ => fun _ => None
      end x
  end.

(** The answer of [dockerCmd.Start()] when the entry is one. *)
Definition start_answer (e : io) : option (option error) :=
  match e with
  | IO c x =>
      match c return resp c -> option (option error) with
      | Start _ => fun x => Some x
      | _ => fun _ => None
      end x
  end.

Fixpoint answers {A : Type} (f : io -> option A) (t : list io) : list A :=
  match t with
  | [] => []
  | e :: t' =>
      match f e with
      | Some a => a :: answers f t'
      | None => answers f t'
      end
  end.

Definition lookups (t : list io) : list (result Image) := answers lookup_answer t.
Definition pulls (t : list io) : list (option error) := answers pull_answer t.
Definition checks (t : list io) : list (bool * option error) := answers check_answer t.
Definition starts (t : list io) : list (option error) := answers start_answer t.

(** The record is absent: the store answered with an error that is
    [errdefs.ErrNotFound]. *)
Definition not_found (r : result Image) : bool :=
  match r with
  | Ok _ => false
  | Err e => chain_Is e ErrNotFound
  end.

(** The calls one [Pull name plats] makes. *)
Definition pull_calls (name : string) (plats : list Platform) : list call :=
  [ ProgressHandler;
    Transfer (NewOCIRegistry name) (NewStore name [WithPlatforms plats]);
    ProgressDone ].

(** ** A scripted world

    The collaborators as a test double: every answer is fixed in advance,
    the transferrer, the store and the availability check answer their
    successive calls from lists.  The daemon subprocess has a state of its
    own: it runs once started and has exited, with [w_exit], once its
    output has been imported to the end. *)

Inductive proc : Type :=
| NotStarted
| Running
| Exited (status : Z).

Record World : Type := mkWorld {
  w_env : string -> string;
  w_pipe : option error;
  w_start : option error;
  w_decompress : option error;
  w_close : option error;
  w_closed : bool;
  w_transfers : list (option error);
  w_lookups : list (result Image);
  w_checks : list (bool * option error);
  w_proc : proc;
  w_exit : Z
}.

Definition unscripted : error := Sentinel (ErrOther "unscripted call").

Definition on_start (w : World) : option error * World :=
  (w_start w,
   match w_start w with
   | None => mkWorld (w_env w) (w_pipe w) (w_start w) (w_decompress w) (w_close w)
               (w_closed w) (w_transfers w) (w_lookups w) (w_checks w)
               Running (w_exit w)
   | Some _ => w
   end).

Definition on_close (w : World) : option error * World :=
  if w_closed w then (Some (Sentinel ErrClosed), w)
  else (w_close w,
        mkWorld (w_env w) (w_pipe w) (w_start w) (w_decompress w) (w_close w)
          true (w_transfers w) (w_lookups w) (w_checks w) (w_proc w) (w_exit w)).

Definition on_transfer (src : Source) (w : World) : option error * World :=
  match w_transfers w with
  | [] => (Some unscripted, w)
  | a :: rest =>
      (a,
       mkWorld (w_env w) (w_pipe w) (w_start w) (w_decompress w) (w_close w)
         (w_closed w) rest (w_lookups w) (w_checks w)
         (match src, a, w_proc w with
          | NewImageImportStream _ _, None, Running => Exited (w_exit w)
          | _, _, p => p
          end)
         (w_exit w))
  end.

Definition on_lookup (w : World) : result Image * World :=
  match w_lookups w with
  | [] => (Err unscripted, w)
  | a :: rest =>
      (a,
       mkWorld (w_env w) (w_pipe w) (w_start w) (w_decompress w) (w_close w)
         (w_closed w) (w_transfers w) rest (w_checks w) (w_proc w) (w_exit w))
  end.

Definition on_check (w : World) : (bool * option error) * World :=
  match w_checks w with
  | [] => ((false, Some unscripted), w)
  | a :: rest =>
      (a,
       mkWorld (w_env w) (w_pipe w) (w_start w) (w_decompress w) (w_close w)
         (w_closed w) (w_transfers w) (w_lookups w) rest (w_proc w) (w_exit w))
  end.

Definition scripted : handler World :=
  fun c =>
    match c return World -> resp c * World with
    | Infof _ | Debugf _ => fun w => (tt, w)
    | Getenv key => fun w => (w_env w key, w)
    | StdoutPipe _ => fun w => (w_pipe w, w)
    | Start _ => on_start
    | Close _ => on_close
    | DecompressStream _ => fun w => (w_decompress w, w)
    | ProgressHandler | ProgressDone => fun w => (tt, w)
    | Transfer src _ => on_transfer src
    | ImageStoreGet _ => on_lookup
    | ImagesCheck _ _ => on_check
    end.

(** A world in which every step of a daemon load succeeds, with the given
    transfers, lookups and checks. *)
Definition world (transfers : list (option error)) (lookups : list (result Image))
    (checks : list (bool * option error)) (exit : Z) : World :=
  mkWorld (fun _ => "") None None None None false transfers lookups checks
    NotStarted exit.

(** [refdocker.ParseDockerRef] followed by [String()] on a few
    references: a name that is already written with its registry and tag
    comes back as it is, the familiar name "myimage:latest" comes back
    with the default registry and the library path in front, and anything
    else is rejected here. *)
Definition sample_refs : list string :=
  [ "docker.io/library/myimage:latest"; "docker.io/library/alpine:3.18.2";
    "registry.example/app:v1" ].

Definition sample_ParseDockerRef (s : string) : result string :=
  if String.eqb s "myimage:latest" then Ok "docker.io/library/myimage:latest"
  else if existsb (String.eqb s) sample_refs then Ok s
  else Err (Sentinel (ErrOther "invalid reference format")).

Definition sample_String (ref : string) : string := ref.

Definition sample_Get : string -> list Platform -> PullMode -> Prog (result Image) :=
  Get sample_ParseDockerRef sample_String.

Definition linux_amd64 : Platform := mkPlatform "amd64" "linux" "" [] "".
Definition linux_arm64 : Platform := mkPlatform "arm64" "linux" "" [] "v8".

Definition sample_image (name : string) : Image :=
  mkImage name []
    (mkDescriptor "application/vnd.oci.image.index.v1+json"
       "sha256:4bcff63911fcb4448bd4fdacec207030997caf25e9bea4045fa6c8c44de311d1" 1638).

(** The name under which "myimage:latest" is saved and looked up. *)
Definition myimage : string := "docker.io/library/myimage:latest".

(** A record whose target is the manifest of a single-platform image, as
    an import from a daemon leaves it. *)
Definition sample_manifest (name : string) : Image :=
  mkImage name []
    (mkDescriptor "application/vnd.docker.distribution.manifest.v2+json"
       "sha256:9a4d5f0c2e6b7d81f3a5c2b94e07d6a18c3f52e0b7a96d4c1e8f20b35d7c6a41" 1777).

(** [&fs.PathError{Op: "read", Path: "|0", Err: os.ErrClosed}]: what a
    read on a closed pipe returns. *)
Definition closed_pipe_error : error :=
  Wrapf (Foreign "read |0") (Sentinel ErrClosed).

(** ** Reference kinds, as [Get] dispatches on them *)

Inductive kind : Type :=
| DockerDaemon
| PodmanDaemon
| Registry.

Definition kind_of (rawRef : string) : kind :=
  if isDocker rawRef then DockerDaemon
  else if isPodman rawRef then PodmanDaemon
  else Registry.

(** The text handed to the parser: the reference without its daemon
    prefix. *)
Definition trimmed (rawRef : string) : string :=
  match kind_of rawRef with
  | DockerDaemon => strings.TrimPrefix rawRef dockerImagePrefix
  | PodmanDaemon => strings.TrimPrefix rawRef podmanImagePrefix
  | Registry => rawRef
  end.

(** The name under which the image is saved, pulled and looked up: the
    [String()] of the parsed reference, when the reference parses. *)
Definition name_of {Named : Type} (ParseDockerRef : string -> result Named)
    (Named_String : Named -> string) (rawRef : string) : option string :=
  match ParseDockerRef (trimmed rawRef) with
  | Ok ref => Some (Named_String ref)
  | Err _ => None
  end.

(** The daemon binary: the environment's override, or the default when
    the variable is empty. *)
Definition binary (override default : string) : string :=
  if String.eqb override "" then default else override.

(** ** Successful answers *)

Definition is_nil (err : option error) : bool :=
  match err with
  | None => true
  | Some _ => false
  end.

(** The call went well: no error came back, and for an availability
    check the content is there. *)
Definition ok (e : io) : bool :=
  match e with
  | IO c x =>
      match c return resp c -> bool with
      | Infof _ | Debugf _ | Getenv _ | ProgressHandler | ProgressDone => fun _ => true
      | StdoutPipe _ | Start _ | Close _ | DecompressStream _ | Transfer _ _ => is_nil
      | ImageStoreGet _ => fun x => match x with Ok _ => true | Err _ => false end
      | ImagesCheck _ _ => fun x => fst x && is_nil (snd x)
      end x
  end.

Definition is_close (c : call) : bool :=
  match c with
  | Close _ => true
  | _ => false
  end.

Definition close_answer (e : io) : option (option error) :=
  match e with
  | IO c x =>
      match c return resp c -> option (option error) with
      | Close _ => fun x => Some x
      | _ => fun _ => None
      end x
  end.

Definition closes (t : list io) : list (option error) := answers close_answer t.

(** The answers of [compression.DecompressStream] and of the archive
    import: the two steps of [Load]. *)
Definition load_answer (e : io) : option (option error) :=
  match e with
  | IO c x =>
      match c return resp c -> option (option error) with
      | DecompressStream _ => fun x => Some x
      | Transfer (NewImageImportStream _ _) _ => fun x => Some x
      | _ => fun _ => None
      end x
  end.

Definition loads (t : list io) : list (option error) := answers load_answer t.

Definition getenv_answer (e : io) : option string :=
  match e with
  | IO c x =>
      match c return resp c -> option string with
      | Getenv _ => fun x => Some x
      | _ => fun _ => None
      end x
  end.

Definition getenvs (t : list io) : list string := answers getenv_answer t.

(** The last element of a list, when there is one. *)
Definition last_error {A : Type} (l : list A) : option A :=
  hd_error (rev l).

(** A pipe whose handle has been closed: every read fails with
    [closed_pipe_error] and leaves the buffer alone. *)
Definition closed_pipe : io_Reader unit :=
  fun r p => (mkRead p 0 (Some closed_pipe_error), r).

(** The argument vector of [exec.Command(docker, "save", name)]. *)
Definition save_args (docker name : string) : list string := [docker; "save"; name].

(** The default binary of each daemon. *)
Definition default_binary (k : kind) : string :=
  match k with
  | DockerDaemon => "docker"
  | PodmanDaemon => "podman"
  | Registry => ""
  end.

(** The calls of a daemon load in which every step succeeds and the
    store answers with [img]. *)
Definition load_calls (docker name : string) (plats : list Platform) (img : Image)
  : list call :=
  let Args := save_args docker name in
  let tarR := WithEOF (StdoutPipeOf Args) in
  [ Infof (LogLoading name docker);
    StdoutPipe Args;
    Debugf (LogRunning Args);
    Start Args;
    DecompressStream tarR;
    ProgressHandler;
    Transfer (NewImageImportStream (Decompressed tarR) "")
      (NewStore name [ WithPlatforms plats; WithPlatforms plats; WithAllMetadata;
                       WithNamedPrefix "unused" true ]);
    ProgressDone;
    Close Args;
    ImageStoreGet name;
    ImagesCheck (Target img) (platforms_Any plats);
    Close Args ].

(** The calls of a daemon load up to the closing of the pipe: the export
    and its import. *)
Definition import_calls (docker name : string) (plats : list Platform) : list call :=
  let Args := save_args docker name in
  let tarR := WithEOF (StdoutPipeOf Args) in
  [ Infof (LogLoading name docker);
    StdoutPipe Args;
    Debugf (LogRunning Args);
    Start Args;
    DecompressStream tarR;
    ProgressHandler;
    Transfer (NewImageImportStream (Decompressed tarR) "")
      (NewStore name [ WithPlatforms plats; WithPlatforms plats; WithAllMetadata;
                       WithNamedPrefix "unused" true ]);
    ProgressDone;
    Close Args ].

(** What a handler answers to a list of calls made one after the other
    from a world, and the world it ends in. *)
Fixpoint replay {W : Type} (h : handler W) (cs : list call) (w : W) : list io * W :=
  match cs with
  | [] => ([], w)
  | c :: cs' =>
      let (x, w1) := h c w in
      let (t, w2) := replay h cs' w1 in
      (IO c x :: t, w2)
  end.

Definition after {W : Type} (h : handler W) (cs : list call) (w : W) : W :=
  snd (replay h cs w).

(** Every answer of the transcript is a success. *)
Definition all_ok (t : list io) : bool := forallb ok t.

(** The first two stages of [Get] on a registry reference: the switch on
    the pull mode and "Get the image object". *)
Definition Get_record (name : string) (plats : list Platform) (pullMode : PullMode)
  : Prog (result Image) :=
  stop <- Get_switch name plats pullMode ;;
  match stop with
  | Some e => Ret (Err e)
  | None => Get_image name plats pullMode
  end.

(** [cause] is [e] itself or what is left of [e] after unwrapping it one
    or more times. *)
Fixpoint unwraps_to (e cause : error) : Prop :=
  e = cause
  \/ match e with
     | Wrapf _ e' => unwraps_to e' cause
     | _ => False
     end.

(** The image name in the arguments of a started [save] command. *)
Definition saved_name (c : call) : option string :=
  match c with
  | Start (_ :: _ :: name :: _) => Some name
  | _ => None
  end.

(** ** Sample runs *)

Definition app : string := "registry.example/app:v1".
Definition both : list Platform := [linux_amd64; linux_arm64].

(** What the image store answers for a name it does not have. *)
Definition absent (name : string) : error :=
  Wrapf (Foreign ("image " ++ name)) (Sentinel ErrNotFound).

Definition registry_down : error :=
  Sentinel (ErrOther "dial tcp 203.0.113.7:443: connect: connection refused").


Definition no_such_binary : error :=
  Wrapf (Foreign "exec: docker") (Sentinel (ErrOther "executable file not found in $PATH")).

(** "never", the record is absent. *)
Definition run_never_absent :=
  run scripted (sample_Get app both PullNever)
    (world [] [Err (absent app)] [] 0).

(** "never", the record is there but not available for the platforms. *)
Definition run_never_unavailable :=
  run scripted (sample_Get app both PullNever)
    (world [] [Ok (sample_image app)] [(false, None)] 0).

(** "always", the record is there and available. *)
Definition run_always_present :=
  run scripted (sample_Get app both PullAlways)
    (world [None] [Ok (sample_image app)] [(true, None)] 0).


(** "missing", the record is absent and stays absent after the pull. *)
Definition run_missing_still_absent :=
  run scripted (sample_Get app both PullMissing)
    (world [None] [Err (absent app); Err (absent app)] [] 0).

(** "missing", the record is absent and the registry cannot be reached. *)
Definition run_missing_registry_down :=
  run scripted (sample_Get app both PullMissing)
    (world [Some registry_down] [Err (absent app)] [] 0).

(** "missing", the record is there but not available; the pull works. *)
Definition run_missing_unavailable :=
  run scripted (sample_Get app both PullMissing)
    (world [None] [Ok (sample_image app)] [(false, None)] 0).

(** "missing", the record is there but not available; the registry
    cannot be reached. *)
Definition run_missing_unavailable_down :=
  run scripted (sample_Get app both PullMissing)
    (world [Some registry_down] [Ok (sample_image app)] [(false, None)] 0).

(** An unknown pull mode on a registry reference. *)
Definition run_sometimes_registry :=
  run scripted (sample_Get app both "sometimes")
    (world [None] [Ok (sample_image app)] [(true, None)] 0).

(** The daemon has the image and everything works; the subprocess exits
    with [exit]. *)
Definition daemon_world (exit : Z) : World :=
  world [None] [Ok (sample_manifest myimage)] [(true, None)] exit.

Definition run_docker_missing :=
  run scripted (sample_Get "docker://myimage:latest" [linux_amd64] PullMissing) (daemon_world 0).

(** An unknown pull mode on a daemon reference. *)
Definition run_docker_sometimes :=
  run scripted (sample_Get "docker://myimage:latest" [linux_amd64] "sometimes") (daemon_world 0).

(** The daemon binary cannot be started. *)
(** The calls of a daemon load of "myimage:latest" from docker in which
    every step succeeds. *)
Definition docker_calls : list call :=
  Getenv "DOCKER"
    :: load_calls "docker" myimage [linux_amd64] (sample_manifest myimage).

Definition no_binary_world : World :=
  mkWorld (fun _ => "") None (Some no_such_binary) None None false
    [] [] [] NotStarted 0.

Definition run_docker_no_binary :=
  run scripted (sample_Get "docker://myimage:latest" [linux_amd64] PullMissing)
    no_binary_world.

(** The subprocess exits with status 1 after its output has been
    imported. *)
Definition run_docker_exit_1 :=
  run scripted (sample_Get "docker://myimage:latest" [linux_amd64] PullMissing) (daemon_world 1).

Definition outcome {W R : Type} (x : R * list io * W) : R := fst (fst x).
Definition transcript {W R : Type} (x : R * list io * W) : list io := snd (fst x).
Definition final {W R : Type} (x : R * list io * W) : W := snd x.

(** ** More ways to read a transcript *)

(** The prefix that marks a daemon reference, and the environment
    variable that overrides the daemon's binary. *)
Definition prefix_of (k : kind) : string :=
  match k with
  | DockerDaemon => dockerImagePrefix
  | PodmanDaemon => podmanImagePrefix
  | Registry => ""
  end.

Definition env_key (k : kind) : string :=
  match k with
  | DockerDaemon => "DOCKER"
  | PodmanDaemon => "PODMAN"
  | Registry => ""
  end.

Definition is_getenv (c : call) : bool :=
  match c with
  | Getenv _ => true
  | _ => false
  end.

Definition is_decompress (c : call) : bool :=
  match c with
  | DecompressStream _ => true
  | _ => false
  end.

Definition is_progress (c : call) : bool :=
  match c with
  | ProgressHandler | ProgressDone => true
  | _ => false
  end.

(** Every transfer sits between a [ProgressHandler] just before it and
    the [ProgressDone] just after it, and neither of the two occurs
    anywhere else. *)
Fixpoint bracketed (l : list call) : bool :=
  match l with
  | [] => true
  | ProgressHandler :: Transfer _ _ :: ProgressDone :: l' => bracketed l'
  | c :: l' => negb (is_progress c || is_transfer c) && bracketed l'
  end.

Definition pipe_answer (e : io) : option (option error) :=
  match e with
  | IO c x =>
      match c return resp c -> option (option error) with
      | StdoutPipe _ => fun x => Some x
      | _ => fun _ => None
      end x
  end.

Definition pipes (t : list io) : list (option error) := answers pipe_answer t.

(** The error a collaborator answered with, when it did. *)
Definition failure (e : io) : option error :=
  match e with
  | IO c x =>
      match c return resp c -> option error with
      | Infof _ | Debugf _ | Getenv _ | ProgressHandler | ProgressDone => fun _ => None
      | StdoutPipe _ | Start _ | Close _ | DecompressStream _ | Transfer _ _ => fun x => x
      | ImageStoreGet _ => fun x => match x with Ok _ => None | Err e => Some e end
      | ImagesCheck _ _ => fun x => snd x
      end x
  end.

Definition failures (t : list io) : list error := answers failure t.

(** "always"; the record is absent, the pulls work, and the record that
    arrives is not available for the platforms. *)
Definition run_always_three_pulls :=
  run scripted (sample_Get app both PullAlways)
    (world [None; None; None] [Err (absent app); Ok (sample_image app)]
       [(false, None)] 0).


(** A world whose environment names another podman binary. *)
Definition podman_world : World :=
  mkWorld (fun key => if String.eqb key "PODMAN" then "/opt/podman/bin/podman" else "")
    None None None None false
    [None] [Ok (sample_manifest myimage)] [(true, None)] NotStarted 0.

Definition run_podman :=
  run scripted (sample_Get "podman://myimage:latest" [linux_amd64] PullNever)
    podman_world.

(** A reference the sample parser rejects. *)
Definition run_bad_reference :=
  run scripted (sample_Get "docker://MyImage" both PullAlways) (daemon_world 0).

(** A daemon load whose pipe cannot be made. *)
Definition no_pipe : error := Sentinel (ErrOther "exec: Stdout already set").

Definition run_load_no_pipe :=
  run scripted (loadDocker "docker" myimage [linux_amd64])
    (mkWorld (fun _ => "") (Some no_pipe) None None None false
       [] [] [] NotStarted 0).

Definition run_load :=
  run scripted (loadDocker "docker" myimage [linux_amd64]) (daemon_world 0).

(** A pipe on which a read returns five bytes and no error. *)
Definition open_pipe : io_Reader unit :=
  fun r p => (mkRead p 5 None, r).


(** * Properties *)

(** ** [readerWithEOF.Read] *)

(** C8. When the embedded reader's [Read] fails with an error that is
    [os.ErrClosed] (the handle is already closed), [readerWithEOF.Read]
    returns the same count with [io.EOF] in place of that error, so the
    consumer sees the end of the stream and not a failure. *)
Theorem readerWithEOF_Read_closed_is_EOF :
  forall (S : Type) (Reader_Read : io_Reader S) (r r' : S) (p : list Byte.byte)
         (res : read_result),
    Reader_Read r p = (res, r') ->
    errors.Is (rd_err res) ErrClosed = true ->
    readerWithEOF_Read Reader_Read r p
      = (mkRead (rd_buf res) (rd_n res) (Some (Sentinel EOF)), r')
    /\ errors.Is (rd_err (fst (readerWithEOF_Read Reader_Read r p))) ErrClosed = false
    /\ errors.Is (rd_err (fst (readerWithEOF_Read Reader_Read r p))) EOF = true.
Proof.
  intros S Reader_Read r r' p res Hread Hclosed.
  unfold readerWithEOF_Read.
  rewrite Hread, Hclosed.
  repeat split.
Qed.

(** X16. Every other outcome of the embedded reader passes through unchanged. *)
Lemma readerWithEOF_Read_other :
  forall (S : Type) (Reader_Read : io_Reader S) (r : S) (p : list Byte.byte),
    errors.Is (rd_err (fst (Reader_Read r p))) ErrClosed = false ->
    readerWithEOF_Read Reader_Read r p = Reader_Read r p.
Proof.
  intros S Reader_Read r p Hother.
  unfold readerWithEOF_Read.
  destruct (Reader_Read r p) as [res r'].
  simpl in Hother. rewrite Hother.
  destruct res; reflexivity.
Qed.

Lemma readerWithEOF_Read_closed_is_EOF_witness :
  readerWithEOF_Read closed_pipe tt [] = (mkRead [] 0 (Some (Sentinel EOF)), tt)
  /\ errors.Is (rd_err (fst (readerWithEOF_Read closed_pipe tt []))) ErrClosed = false
  /\ errors.Is (rd_err (fst (readerWithEOF_Read closed_pipe tt []))) EOF = true.
Proof.
  apply (@readerWithEOF_Read_closed_is_EOF unit closed_pipe tt tt []
           (mkRead [] 0 (Some closed_pipe_error))).
  - reflexivity.
  - reflexivity.
Defined.

(** ** [Get] *)

Section Claims.

Variable Named : Type.
Variable ParseDockerRef : string -> result Named.
Variable Named_String : Named -> string.

Variable W : Type.
Variable h : handler W.

Lemma registry_dispatch :
  forall rawRef name,
    kind_of rawRef = Registry ->
    name_of ParseDockerRef Named_String rawRef = Some name ->
    isDocker rawRef = false /\ isPodman rawRef = false /\
    exists ref, ParseDockerRef rawRef = Ok ref /\ Named_String ref = name.
Proof.
  intros rawRef name Hkind Hname.
  unfold name_of, trimmed in Hname.
  rewrite Hkind in Hname.
  unfold kind_of in Hkind.
  destruct (isDocker rawRef); [discriminate|].
  destruct (isPodman rawRef); [discriminate|].
  destruct (ParseDockerRef rawRef) as [ref|e]; [|discriminate].
  injection Hname as Hname.
  repeat split. exists ref. split; [reflexivity | exact Hname].
Qed.

(** Unfold [Get] on a registry reference down to its three stages. *)
Ltac registry_ref Hkind Hname :=
  let Hd := fresh "Hd" in
  let Hp := fresh "Hp" in
  let ref := fresh "ref" in
  let Hparse := fresh "Hparse" in
  let Hstr := fresh "Hstr" in
  destruct (registry_dispatch _ Hkind Hname) as (Hd & Hp & ref & Hparse & Hstr);
  unfold Get; rewrite Hd, Hp, Hparse; rewrite Hstr.

(** Run the program in the goal one call at a time, naming each answer
    of the handler and splitting on it. *)
Ltac exec :=
  repeat first
    [ progress cbn
    | progress rewrite ?andb_false_r, ?andb_true_r
    | match goal with
      | |- context [h ?c ?w] => is_var w; destruct (h c w) as [? ?] eqn:?
      | |- context [match ?x with Ok _ => _ | Err _ => _ end] => is_var x; destruct x
      | |- context [match ?x with Some _ => _ | None => _ end] => is_var x; destruct x
      | |- context [let (_, _) := ?x in _] => is_var x; destruct x
      | |- context [if negb ?x then _ else _] => is_var x; destruct x
      | |- context [if ?b then _ else _] => destruct b eqn:?
      end ].

(** Name the outcome of a finished run. *)
Ltac finished :=
  let Heq := fresh "Heq" in
  intros Heq; injection Heq as <- <- <-; cbn.

(** Two answers of the handler to the same call in the same world are
    the same answer. *)
Ltac agree :=
  repeat match goal with
         | H1 : h ?c ?w = _, H2 : h ?c ?w = _ |- _ => rewrite H1 in H2
         | H : (_, _) = (_, _) |- _ =>
             let Ha := fresh "Ha" in
             let Hw := fresh "Hw" in
             apply pair_equal_spec in H; destruct H as [Ha Hw]; cbn in Ha;
             first [ discriminate Ha | inversion Ha; subst; try clear Ha ]
         end.

(** Use the answers already named wherever the goal asks for them. *)
Ltac settle :=
  repeat match goal with
         | H : h ?c ?w = _ |- context [h ?c ?w] => rewrite H; cbn
         end.

(** C1, as amended.  For a reference without daemon prefix that parses,
    a pull mode other than "always", "missing" and "never" makes [Get]
    fail with the unknown-pull-mode error before any call is made: the
    transcript is empty and the world is as it was. *)
Theorem Get_unknown_pull_mode :
  forall (w : W) (rawRef : string) (plats : list Platform) (pullMode : PullMode)
         (name : string),
    kind_of rawRef = Registry ->
    name_of ParseDockerRef Named_String rawRef = Some name ->
    pullMode <> PullAlways -> pullMode <> PullMissing -> pullMode <> PullNever ->
    run h (Get ParseDockerRef Named_String rawRef plats pullMode) w
      = (Err (Errorf (UnknownPullMode pullMode)), [], w).
Proof.
  intros w rawRef plats pullMode name Hkind Hname Ha Hm Hn.
  registry_ref Hkind Hname.
  unfold Get_switch.
  apply String.eqb_neq in Ha, Hm, Hn.
  rewrite Ha, Hm, Hn.
  reflexivity.
Qed.

(** C3. Under pull mode "never", [Get] on a registry reference never uses
    the transferrer and never touches a subprocess, in any run.  When the
    store answers the lookup of the name with a not-found error, the run
    is that lookup alone and [Get] fails with that error wrapped, which
    still is [ErrNotFound].  When the store gives a record and the
    availability check of its target, for the requested platforms, says
    unavailable, the run is the lookup and the check and [Get] fails with
    the lacks-blobs error, which is [ErrUnavailable]. *)
Theorem Get_never_does_not_pull :
  forall (w w' : W) (rawRef : string) (plats : list Platform) (name : string)
         (r : result Image) (t : list io),
    kind_of rawRef = Registry ->
    name_of ParseDockerRef Named_String rawRef = Some name ->
    run h (Get ParseDockerRef Named_String rawRef plats PullNever) w = (r, t, w') ->
    count is_transfer (calls t) = 0%nat
    /\ count is_subprocess (calls t) = 0%nat
    /\ (forall (e : error) (w1 : W),
          h (ImageStoreGet name) w = (Err e, w1) ->
          chain_Is e ErrNotFound = true ->
          r = Err (Wrapf (FailedToGetImage name) e)
          /\ chain_Is (Wrapf (FailedToGetImage name) e) ErrNotFound = true
          /\ t = [IO (ImageStoreGet name) (Err e)]
          /\ w' = w1)
    /\ (forall (img : Image) (w1 w2 : W),
          h (ImageStoreGet name) w = (Ok img, w1) ->
          h (ImagesCheck (Target img) (platforms_Any plats)) w1 = ((false, None), w2) ->
          r = Err (Wrapf (LacksBlobs name) (Sentinel ErrUnavailable))
          /\ chain_Is (Wrapf (LacksBlobs name) (Sentinel ErrUnavailable)) ErrUnavailable
             = true
          /\ t = [ IO (ImageStoreGet name) (Ok img);
                   IO (ImagesCheck (Target img) (platforms_Any plats)) (false, None) ]
          /\ w' = w2).
Proof.
  intros w w' rawRef plats name r t Hkind Hname.
  registry_ref Hkind Hname.
  exec; finished.
  all: split; [reflexivity | split; [reflexivity | split]].
  all: intros; agree.
  all: repeat split; first [reflexivity | assumption].
Qed.

(** C5. Under pull mode "always", [Get] on a registry reference pulls
    exactly once before it first asks the store, whatever the store
    holds: the calls before the first lookup are the log line and one
    [Pull].  When that pull fails, [Get] returns the pull error wrapped
    and never asks the store; when it succeeds, the lookup comes next. *)
Theorem Get_always_pulls_before_lookup :
  forall (w w' : W) (rawRef : string) (plats : list Platform) (name : string)
         (r : result Image) (t : list io),
    kind_of rawRef = Registry ->
    name_of ParseDockerRef Named_String rawRef = Some name ->
    run h (Get ParseDockerRef Named_String rawRef plats PullAlways) w = (r, t, w') ->
    before_first is_lookup (calls t) = Infof (LogPulling name) :: pull_calls name plats
    /\ count is_pull (before_first is_lookup (calls t)) = 1%nat
    /\ exists perr : option error,
         hd_error (pulls t) = Some perr
         /\ match perr with
            | Some e =>
                r = Err (Wrapf (FailedToPull name) (Wrapf (FailedToPull name) e))
                /\ calls t = Infof (LogPulling name) :: pull_calls name plats
                /\ count is_lookup (calls t) = 0%nat
            | None =>
                exists rest,
                  calls t = Infof (LogPulling name) :: pull_calls name plats
                              ++ ImageStoreGet name :: rest
            end.
Proof.
  intros w w' rawRef plats name r t Hkind Hname.
  registry_ref Hkind Hname.
  exec; finished.
  all: split; [reflexivity | split; [reflexivity | ]].
  all: eexists; split; [reflexivity | cbn].
  all: first [ repeat split; reflexivity | eexists; reflexivity ].
Qed.


(** C2, as amended.  Under pull mode "missing", when the store answers
    the lookup of a registry reference with a not-found error, [Get] logs
    and pulls once.  When the transferrer fails that pull, [Get] returns
    the pull error wrapped and the store is not asked again.  When the
    pull succeeds, [Get] asks the store once more: if that lookup fails,
    [Get] fails with the should-have-pulled error and has pulled once
    only; if it gives a record, the availability check of that record
    comes next. *)
Theorem Get_missing_pulls_then_looks_again :
  forall (w w' w1 : W) (rawRef : string) (plats : list Platform) (name : string)
         (r : result Image) (t : list io) (e : error),
    kind_of rawRef = Registry ->
    name_of ParseDockerRef Named_String rawRef = Some name ->
    run h (Get ParseDockerRef Named_String rawRef plats PullMissing) w = (r, t, w') ->
    h (ImageStoreGet name) w = (Err e, w1) ->
    chain_Is e ErrNotFound = true ->
    let pull := Transfer (NewOCIRegistry name) (NewStore name [WithPlatforms plats]) in
    let wp := after h [Infof (LogPulling name); ProgressHandler] w1 in
    let wl := after h [pull; ProgressDone] wp in
    match fst (h pull wp) with
    | Some pe =>
        r = Err (Wrapf (FailedToPull name) (Wrapf (FailedToPull name) pe))
        /\ calls t = ImageStoreGet name :: Infof (LogPulling name) :: pull_calls name plats
        /\ lookups t = [Err e]
        /\ w' = wl
    | None =>
        match fst (h (ImageStoreGet name) wl) with
        | Err e' =>
            r = Err (Wrapf (ShouldHavePulled name) e')
            /\ calls t = ImageStoreGet name :: Infof (LogPulling name)
                           :: pull_calls name plats ++ [ImageStoreGet name]
            /\ lookups t = [Err e; Err e']
            /\ count is_pull (calls t) = 1%nat
        | Ok img =>
            exists rest : list call,
              calls t = ImageStoreGet name :: Infof (LogPulling name)
                          :: pull_calls name plats
                          ++ ImageStoreGet name
                          :: ImagesCheck (Target img) (platforms_Any plats) :: rest
              /\ lookups t = [Err e; Ok img]
        end
    end.
Proof.
  intros w w' w1 rawRef plats name r t e Hkind Hname.
  registry_ref Hkind Hname.
  intros Hrun Hl Hnf. revert Hrun.
  unfold after. cbn. rewrite Hl. cbn. rewrite Hnf.
  exec; finished.
  all: agree.
  all: first [ repeat split; reflexivity | eexists; split; reflexivity ].
Qed.

(** C4, as amended.  Under pull mode "always" or "missing", when the
    first two stages of [Get] on a registry reference have given a record
    and the availability check of its target, for the requested
    platforms, says unavailable, [Get] logs and makes one more pull, for
    the name and the whole requested platform list, and nothing else: the
    check is not repeated.  When the transferrer reports success [Get]
    returns the record as the store gave it; when it fails [Get] returns
    the pull error wrapped. *)
Theorem Get_unavailable_pulls_once_more :
  forall (w wr w1 : W) (rawRef : string) (plats : list Platform) (pullMode : PullMode)
         (name : string) (img : Image) (tr : list io),
    kind_of rawRef = Registry ->
    name_of ParseDockerRef Named_String rawRef = Some name ->
    pullMode = PullAlways \/ pullMode = PullMissing ->
    run h (Get_record name plats pullMode) w = (Ok img, tr, wr) ->
    h (ImagesCheck (Target img) (platforms_Any plats)) wr = ((false, None), w1) ->
    let pull := Transfer (NewOCIRegistry name) (NewStore name [WithPlatforms plats]) in
    let wp := after h [Infof (LogPullingAdditional name); ProgressHandler] w1 in
    exists t : list io,
      run h (Get ParseDockerRef Named_String rawRef plats pullMode) w
      = (match fst (h pull wp) with
         | None => Ok img
         | Some e => Err (Wrapf (FailedToPull name) (Wrapf (FailedToPull name) e))
         end,
         t, after h [pull; ProgressDone] wp)
      /\ calls t = (calls tr
                     ++ ImagesCheck (Target img) (platforms_Any plats)
                     :: Infof (LogPullingAdditional name) :: pull_calls name plats)%list
      /\ checks t = [(false, None)]
      /\ last_error (lookups t) = Some (Ok img)
      /\ last_error (pulls t) = Some (fst (h pull wp)).
Proof.
  intros w wr w1 rawRef plats pullMode name img tr Hkind Hname Hmode.
  registry_ref Hkind Hname.
  intros Hres Hcheck.
  unfold Get_record, after in *.
  destruct Hmode as [-> | ->].
  all: revert Hres; exec.
  all: intros Hres; try discriminate Hres.
  all: injection Hres as <- <- <-.
  all: agree.
  all: eexists; repeat split; reflexivity.
Qed.

Lemma daemon_dispatch :
  forall rawRef name,
    kind_of rawRef <> Registry ->
    name_of ParseDockerRef Named_String rawRef = Some name ->
    exists ref,
      Named_String ref = name
      /\ ((kind_of rawRef = DockerDaemon /\ isDocker rawRef = true
           /\ ParseDockerRef (strings.TrimPrefix rawRef dockerImagePrefix) = Ok ref)
          \/ (kind_of rawRef = PodmanDaemon /\ isDocker rawRef = false
              /\ isPodman rawRef = true
              /\ ParseDockerRef (strings.TrimPrefix rawRef podmanImagePrefix) = Ok ref)).
Proof.
  intros rawRef name Hkind Hname.
  unfold name_of, trimmed in Hname.
  unfold kind_of in *.
  destruct (isDocker rawRef).
  - destruct (ParseDockerRef _) as [ref|e] eqn:Hparse; [|discriminate].
    injection Hname as Hname. exists ref. split; [exact Hname | left; auto].
  - destruct (isPodman rawRef); [|congruence].
    destruct (ParseDockerRef _) as [ref|e] eqn:Hparse; [|discriminate].
    injection Hname as Hname. exists ref. split; [exact Hname | right; auto].
Qed.

(** C6, as amended.  On "docker://myimage:latest" with pull mode
    "missing", where [name] is how the parser writes "myimage:latest" and
    [docker] is the value of [DOCKER] or "docker" when it is empty: when
    the handler answers the export and its import with success (the
    pipe, the start, the decompression, the transfer, the closing of the
    pipe), the store gives a record for [name] and the check says it is
    available, [Get] starts the daemon binary once with the arguments
    [save name], imports its output with one transfer, asks the store
    once, for [name], and returns the record the store gave. *)
Theorem Get_docker_myimage_latest :
  forall (w w_c w_d : W) (plats : list Platform) (ref : Named) (img : Image),
    ParseDockerRef "myimage:latest" = Ok ref ->
    let name := Named_String ref in
    let docker := binary (fst (h (Getenv "DOCKER") w)) "docker" in
    let Args := save_args docker name in
    let export := Getenv "DOCKER" :: import_calls docker name plats in
    all_ok (fst (replay h export w)) = true ->
    h (ImageStoreGet name) (after h export w) = (Ok img, w_c) ->
    h (ImagesCheck (Target img) (platforms_Any plats)) w_c = ((true, None), w_d) ->
    exists t : list io,
      run h (Get ParseDockerRef Named_String "docker://myimage:latest" plats PullMissing) w
      = (Ok img, t, snd (h (Close Args) w_d))
      /\ calls t = Getenv "DOCKER" :: load_calls docker name plats img
      /\ count is_start (calls t) = 1%nat
      /\ In (Start [docker; "save"; name]) (calls t)
      /\ count is_transfer (calls t) = 1%nat
      /\ count is_import (calls t) = 1%nat
      /\ count is_lookup (calls t) = 1%nat
      /\ lookups t = [Ok img]
      /\ In (IO (ImageStoreGet name) (Ok img)) t.
Proof.
  intros w w_c w_d plats ref img Hparse.
  unfold Get, getDocker.
  change (isDocker "docker://myimage:latest") with true.
  change (strings.TrimPrefix "docker://myimage:latest" dockerImagePrefix)
    with "myimage:latest".
  cbv iota. rewrite Hparse.
  unfold all_ok, after, import_calls, load_calls, save_args, binary, loadDocker, Load.
  exec.
  all: intros Hok Hlookup Hcheck.
  all: agree.
  all: cbn in Hok.
  all: repeat (rewrite andb_true_r in Hok || rewrite andb_false_r in Hok).
  all: try discriminate Hok.
  all: settle.
  all: eexists; repeat split; try reflexivity; cbn; auto 20.
Qed.

(** C7, as amended.  For a daemon reference that parses, with the
    command [binary save name] built from the environment's override:
    when the pipe is made and [dockerCmd.Start()] fails, [Get] fails with
    the failed-to-run error, which carries the command and wraps the
    cause; the start is followed only by the deferred closing of the
    pipe, so neither the transferrer nor the store is used. *)
Theorem Get_daemon_start_failure_carries_the_command :
  forall (w : W) (rawRef : string) (plats : list Platform) (pullMode : PullMode)
         (name : string) (e : error),
    kind_of rawRef <> Registry ->
    name_of ParseDockerRef Named_String rawRef = Some name ->
    let k := kind_of rawRef in
    let docker := binary (fst (h (Getenv (env_key k)) w)) (default_binary k) in
    let Args := save_args docker name in
    let before := [ Getenv (env_key k); Infof (LogLoading name docker);
                    StdoutPipe Args; Debugf (LogRunning Args) ] in
    all_ok (fst (replay h before w)) = true ->
    fst (h (Start Args) (after h before w)) = Some e ->
    exists t : list io,
      run h (Get ParseDockerRef Named_String rawRef plats pullMode) w
      = (Err (Wrapf (FailedToRun Args) e), t,
         after h (before ++ [Start Args; Close Args]) w)
      /\ calls t = (before ++ [Start Args; Close Args])%list
      /\ starts t = [Some e]
      /\ count is_transfer (calls t) = 0%nat
      /\ count is_lookup (calls t) = 0%nat.
Proof.
  intros w rawRef plats pullMode name e Hkind Hname.
  destruct (daemon_dispatch _ Hkind Hname)
    as (ref & Hstr & [(Hk & Hd & Hparse) | (Hk & Hd & Hp & Hparse)]).
  all: unfold Get, getDocker, getPodman.
  all: rewrite Hk, Hd, ?Hp, Hparse, Hstr.
  all: unfold all_ok, after, save_args, binary, loadDocker, Load.
  all: exec.
  all: intros Hok Hstart; cbn in Hok, Hstart.
  all: try discriminate Hstart.
  all: try (injection Hstart as Hstart).
  all: subst; agree.
  all: cbn in Hok.
  all: repeat (rewrite andb_true_r in Hok || rewrite andb_false_r in Hok).
  all: try discriminate Hok.
  all: eexists; repeat split; reflexivity.
Qed.

End Claims.

(** ** The properties on sample runs *)

Lemma Get_unknown_pull_mode_witness :
  run_sometimes_registry
    = (Err (Errorf (UnknownPullMode "sometimes")), [],
       world [None] [Ok (sample_image app)] [(true, None)] 0).
Proof.
  apply (@Get_unknown_pull_mode string sample_ParseDockerRef sample_String
           World scripted (world [None] [Ok (sample_image app)] [(true, None)] 0)
           app both "sometimes" app).
  - reflexivity.
  - reflexivity.
  - intro H; discriminate H.
  - intro H; discriminate H.
  - intro H; discriminate H.
Defined.

(** C1, counterexample.  On "docker://myimage:latest" the pull mode
    "sometimes" is not looked at: [Get] starts the daemon binary, imports
    its output, asks the store and returns the record. *)
Lemma Get_daemon_ignores_pull_mode :
  outcome run_docker_sometimes = Ok (sample_manifest myimage)
  /\ calls (transcript run_docker_sometimes)
     = Getenv "DOCKER"
         :: load_calls "docker" myimage [linux_amd64] (sample_manifest myimage)
  /\ count is_start (calls (transcript run_docker_sometimes)) = 1%nat
  /\ count is_transfer (calls (transcript run_docker_sometimes)) = 1%nat
  /\ count is_lookup (calls (transcript run_docker_sometimes)) = 1%nat
  /\ outcome run_docker_sometimes <> Err (Errorf (UnknownPullMode "sometimes")).
Proof.
  repeat split; try reflexivity.
  intro H; discriminate H.
Qed.

Lemma Get_never_does_not_pull_witness :
  (count is_transfer (calls (transcript run_never_absent)) = 0%nat
   /\ count is_subprocess (calls (transcript run_never_absent)) = 0%nat
   /\ outcome run_never_absent = Err (Wrapf (FailedToGetImage app) (absent app))
   /\ transcript run_never_absent = [IO (ImageStoreGet app) (Err (absent app))])
  /\ (count is_transfer (calls (transcript run_never_unavailable)) = 0%nat
      /\ count is_subprocess (calls (transcript run_never_unavailable)) = 0%nat
      /\ outcome run_never_unavailable
         = Err (Wrapf (LacksBlobs app) (Sentinel ErrUnavailable))
      /\ transcript run_never_unavailable
         = [ IO (ImageStoreGet app) (Ok (sample_image app));
             IO (ImagesCheck (Target (sample_image app)) (platforms_Any both))
                (false, None) ]).
Proof.
  split.
  - destruct (@Get_never_does_not_pull string sample_ParseDockerRef sample_String
                World scripted (world [] [Err (absent app)] [] 0) (final run_never_absent)
                app both app
                (outcome run_never_absent) (transcript run_never_absent)
                eq_refl eq_refl eq_refl) as (Ht & Hs & Habsent & _).
    destruct (Habsent (absent app) (final run_never_absent) eq_refl eq_refl)
      as (Hr & _ & Hcalls & _).
    repeat split; assumption.
  - destruct (@Get_never_does_not_pull string sample_ParseDockerRef sample_String
                World scripted (world [] [Ok (sample_image app)] [(false, None)] 0)
                (final run_never_unavailable) app both app
                (outcome run_never_unavailable) (transcript run_never_unavailable)
                eq_refl eq_refl eq_refl) as (Ht & Hs & _ & Hun).
    destruct (Hun (sample_image app) (world [] [] [(false, None)] 0)
                (final run_never_unavailable) eq_refl eq_refl)
      as (Hr & _ & Hcalls & _).
    repeat split; assumption.
Defined.

Lemma Get_always_pulls_before_lookup_witness :
  before_first is_lookup (calls (transcript run_always_present))
    = Infof (LogPulling app) :: pull_calls app both
  /\ count is_pull (before_first is_lookup (calls (transcript run_always_present))) = 1%nat
  /\ exists perr : option error,
       hd_error (pulls (transcript run_always_present)) = Some perr
       /\ match perr with
          | Some e =>
              outcome run_always_present
                = Err (Wrapf (FailedToPull app) (Wrapf (FailedToPull app) e))
              /\ calls (transcript run_always_present)
                 = Infof (LogPulling app) :: pull_calls app both
              /\ count is_lookup (calls (transcript run_always_present)) = 0%nat
          | None =>
              exists rest,
                calls (transcript run_always_present)
                  = Infof (LogPulling app) :: pull_calls app both
                      ++ ImageStoreGet app :: rest
          end.
Proof.
  apply (@Get_always_pulls_before_lookup string sample_ParseDockerRef sample_String
           World scripted (world [None] [Ok (sample_image app)] [(true, None)] 0)
           (final run_always_present) app both app).
  - reflexivity.
  - reflexivity.
  - reflexivity.
Defined.


Lemma Get_missing_pulls_then_looks_again_witness :
  outcome run_missing_still_absent = Err (Wrapf (ShouldHavePulled app) (absent app))
  /\ calls (transcript run_missing_still_absent)
     = ImageStoreGet app :: Infof (LogPulling app)
         :: pull_calls app both ++ [ImageStoreGet app]
  /\ lookups (transcript run_missing_still_absent)
     = [Err (absent app); Err (absent app)]
  /\ count is_pull (calls (transcript run_missing_still_absent)) = 1%nat.
Proof.
  exact (@Get_missing_pulls_then_looks_again string sample_ParseDockerRef sample_String
           World scripted (world [None] [Err (absent app); Err (absent app)] [] 0)
           (final run_missing_still_absent)
           (world [None] [Err (absent app)] [] 0)
           app both app
           (outcome run_missing_still_absent) (transcript run_missing_still_absent)
           (absent app) eq_refl eq_refl eq_refl eq_refl eq_refl).
Defined.

(** C2, counterexample.  Pull mode "missing", the record is absent and
    the registry cannot be reached: [Get] pulls once and returns the pull
    error; the store is asked once, before the pull, and not again. *)
Lemma Get_missing_failed_pull_skips_second_lookup :
  hd_error (lookups (transcript run_missing_registry_down)) = Some (Err (absent app))
  /\ not_found (Err (absent app)) = true
  /\ count is_pull (calls (transcript run_missing_registry_down)) = 1%nat
  /\ count is_lookup (calls (transcript run_missing_registry_down)) = 1%nat
  /\ count is_lookup (after_first is_pull (calls (transcript run_missing_registry_down)))
     = 0%nat
  /\ outcome run_missing_registry_down
     = Err (Wrapf (FailedToPull app) (Wrapf (FailedToPull app) registry_down)).
Proof.
  repeat split; reflexivity.
Qed.

Lemma Get_unavailable_pulls_once_more_witness :
  exists t : list io,
    run_missing_unavailable
    = (Ok (sample_image app), t, world [] [] [] 0)
    /\ calls t = (calls [IO (ImageStoreGet app) (Ok (sample_image app))]
                  ++ ImagesCheck (Target (sample_image app)) (platforms_Any both)
                  :: Infof (LogPullingAdditional app) :: pull_calls app both)%list
    /\ checks t = [(false, None)]
    /\ last_error (lookups t) = Some (Ok (sample_image app))
    /\ last_error (pulls t) = Some None.
Proof.
  exact (@Get_unavailable_pulls_once_more string sample_ParseDockerRef sample_String
           World scripted
           (world [None] [Ok (sample_image app)] [(false, None)] 0)
           (world [None] [] [(false, None)] 0)
           (world [None] [] [] 0)
           app both PullMissing app (sample_image app)
           [IO (ImageStoreGet app) (Ok (sample_image app))]
           eq_refl eq_refl (or_intror eq_refl) eq_refl eq_refl).
Defined.

(** C4, counterexample.  Pull mode "missing", the record is there but
    not available for the requested platforms, and the registry cannot be
    reached: [Get] makes its one pull and returns the pull error, not the
    record. *)
Lemma Get_unavailable_failed_pull_returns_error :
  lookups (transcript run_missing_unavailable_down) = [Ok (sample_image app)]
  /\ checks (transcript run_missing_unavailable_down) = [(false, None)]
  /\ count is_pull (calls (transcript run_missing_unavailable_down)) = 1%nat
  /\ outcome run_missing_unavailable_down
     = Err (Wrapf (FailedToPull app) (Wrapf (FailedToPull app) registry_down))
  /\ outcome run_missing_unavailable_down <> Ok (sample_image app).
Proof.
  repeat split; try reflexivity.
  intro H; discriminate H.
Qed.

Lemma Get_docker_myimage_latest_witness :
  exists t : list io,
    run_docker_missing
    = (Ok (sample_manifest myimage), t, final run_docker_missing)
    /\ calls t
       = Getenv "DOCKER"
           :: load_calls "docker" myimage [linux_amd64] (sample_manifest myimage)
    /\ count is_start (calls t) = 1%nat
    /\ In (Start ["docker"; "save"; myimage]) (calls t)
    /\ count is_transfer (calls t) = 1%nat
    /\ count is_import (calls t) = 1%nat
    /\ count is_lookup (calls t) = 1%nat
    /\ lookups t = [Ok (sample_manifest myimage)]
    /\ In (IO (ImageStoreGet myimage) (Ok (sample_manifest myimage))) t.
Proof.
  exact (@Get_docker_myimage_latest string sample_ParseDockerRef sample_String
           World scripted (daemon_world 0)
           (after scripted (firstn 11 docker_calls) (daemon_world 0))
           (after scripted (firstn 12 docker_calls) (daemon_world 0))
           [linux_amd64] myimage (sample_manifest myimage)
           eq_refl eq_refl eq_refl eq_refl).
Defined.

(** C6, counterexample.  With the parser's answer for "myimage:latest",
    the one command that is started saves
    "docker.io/library/myimage:latest", and the one lookup is by that
    name: neither uses the text "myimage:latest" itself. *)
Lemma Get_docker_saves_the_parsed_name :
  sample_ParseDockerRef "myimage:latest" = Ok myimage
  /\ myimage <> "myimage:latest"
  /\ map saved_name (filter is_start (calls (transcript run_docker_missing)))
     = [Some "docker.io/library/myimage:latest"]
  /\ filter is_lookup (calls (transcript run_docker_missing))
     = [ImageStoreGet "docker.io/library/myimage:latest"]
  /\ outcome run_docker_missing = Ok (sample_manifest myimage).
Proof.
  repeat split; try reflexivity.
  intro H; discriminate H.
Qed.

Lemma Get_daemon_start_failure_carries_the_command_witness :
  exists t : list io,
    run_docker_no_binary
    = (Err (Wrapf (FailedToRun ["docker"; "save"; myimage]) no_such_binary), t,
       final run_docker_no_binary)
    /\ calls t
       = [ Getenv "DOCKER"; Infof (LogLoading myimage "docker");
           StdoutPipe ["docker"; "save"; myimage];
           Debugf (LogRunning ["docker"; "save"; myimage]);
           Start ["docker"; "save"; myimage]; Close ["docker"; "save"; myimage] ]
    /\ starts t = [Some no_such_binary]
    /\ count is_transfer (calls t) = 0%nat
    /\ count is_lookup (calls t) = 0%nat.
Proof.
  exact (@Get_daemon_start_failure_carries_the_command string sample_ParseDockerRef
           sample_String World scripted no_binary_world
           "docker://myimage:latest" [linux_amd64] PullMissing myimage no_such_binary
           (fun H => match H with eq_refl => I end) eq_refl eq_refl eq_refl).
Defined.

(** C7, counterexample.  The daemon binary starts, its output is
    imported, and the subprocess then exits with status 1: nothing asks
    for the exit status, and [Get] returns the record. *)
Lemma Get_daemon_exit_status_is_not_read :
  starts (transcript run_docker_exit_1) = [None]
  /\ w_proc (final run_docker_exit_1) = Exited 1
  /\ outcome run_docker_exit_1 = Ok (sample_manifest myimage)
  /\ calls (transcript run_docker_exit_1)
     = Getenv "DOCKER"
         :: load_calls "docker" myimage [linux_amd64] (sample_manifest myimage).
Proof.
  repeat split; reflexivity.
Qed.

(** * Further properties *)

(** ** Reference kinds *)

Lemma substring_whole :
  forall s : string, String.substring 0 (String.length s) s = s.
Proof.
  induction s as [|a s IH]; [reflexivity | cbn; rewrite IH; reflexivity].
Qed.

Lemma prefix_empty : forall s : string, String.prefix "" s = true.
Proof.
  destruct s; reflexivity.
Qed.

Lemma docker_is_not_podman :
  forall rawRef : string, isDocker rawRef = true -> isPodman rawRef = false.
Proof.
  intros rawRef.
  unfold isDocker, isPodman, strings.HasPrefix, dockerImagePrefix, podmanImagePrefix.
  destruct rawRef as [|a s]; [reflexivity|].
  cbn -[Ascii.ascii_dec].
  repeat match goal with
         | |- context [Ascii.ascii_dec ?c a] => destruct (Ascii.ascii_dec c a)
         end.
  all: try congruence.
  all: intros; reflexivity.
Qed.

(** X1. No reference is both a Docker and a Podman reference: the order in
    which [Get] tries the two prefixes does not matter. *)
Theorem daemon_prefixes_exclusive :
  forall rawRef : string, isDocker rawRef && isPodman rawRef = false.
Proof.
  intros rawRef.
  destruct (isDocker rawRef) eqn:Hd; [|reflexivity].
  rewrite (docker_is_not_podman _ Hd). reflexivity.
Qed.

Lemma HasPrefix_app :
  forall pre x : string, strings.HasPrefix (pre ++ x) pre = true.
Proof.
  unfold strings.HasPrefix.
  induction pre as [|a pre IH]; intros x.
  - apply prefix_empty.
  - cbn -[Ascii.ascii_dec].
    destruct (Ascii.ascii_dec a a) as [_|Hne]; [apply IH | congruence].
Qed.

Lemma TrimPrefix_app :
  forall pre x : string, strings.TrimPrefix (pre ++ x) pre = x.
Proof.
  intros pre x. unfold strings.TrimPrefix.
  rewrite HasPrefix_app.
  induction pre as [|a pre IH].
  - cbn. rewrite Nat.sub_0_r. apply substring_whole.
  - cbn. exact IH.
Qed.

(** A daemon prefix in front of any text [x] is recognised as that
    daemon's, and trimming gives [x] back. *)
Lemma kind_of_prefixed :
  forall (k : kind) (x : string),
    k <> Registry ->
    kind_of (prefix_of k ++ x) = k /\ trimmed (prefix_of k ++ x) = x.
Proof.
  intros k x Hk.
  assert (Hkind : kind_of (prefix_of k ++ x) = k).
  { unfold kind_of, isDocker, isPodman.
    destruct k; [| |congruence].
    - cbn [prefix_of]. rewrite HasPrefix_app. reflexivity.
    - cbn [prefix_of]. rewrite HasPrefix_app.
      destruct (strings.HasPrefix (podmanImagePrefix ++ x) dockerImagePrefix) eqn:Hd;
        [|reflexivity].
      pose proof (docker_is_not_podman (podmanImagePrefix ++ x) Hd) as Hex.
      unfold isPodman in Hex. rewrite HasPrefix_app in Hex. discriminate Hex. }
  split; [exact Hkind|].
  unfold trimmed. rewrite Hkind.
  destruct k; [| |congruence]; apply TrimPrefix_app.
Qed.

Lemma HasPrefix_TrimPrefix :
  forall s pre : string,
    strings.HasPrefix s pre = true -> pre ++ strings.TrimPrefix s pre = s.
Proof.
  intros s pre Hpre. unfold strings.TrimPrefix. rewrite Hpre.
  unfold strings.HasPrefix in Hpre.
  revert s Hpre.
  induction pre as [|a pre IH]; intros s Hpre.
  - cbn. rewrite Nat.sub_0_r. apply substring_whole.
  - destruct s as [|b s]; [discriminate Hpre|].
    cbn -[Ascii.ascii_dec] in Hpre.
    destruct (Ascii.ascii_dec a b) as [<-|Hne]; [|discriminate Hpre].
    cbn. rewrite (IH s Hpre). reflexivity.
Qed.

(** Whatever its kind, a reference is its prefix followed by the text
    that goes to the parser. *)
Lemma prefix_then_trimmed :
  forall rawRef : string,
    prefix_of (kind_of rawRef) ++ trimmed rawRef = rawRef.
Proof.
  intros rawRef. unfold trimmed, kind_of, isDocker, isPodman.
  destruct (strings.HasPrefix rawRef dockerImagePrefix) eqn:Hd.
  - apply HasPrefix_TrimPrefix, Hd.
  - destruct (strings.HasPrefix rawRef podmanImagePrefix) eqn:Hp.
    + apply HasPrefix_TrimPrefix, Hp.
    + reflexivity.
Qed.

Section More.

Variable Named : Type.
Variable ParseDockerRef : string -> result Named.
Variable Named_String : Named -> string.

Variable W : Type.
Variable h : handler W.

(** Run the program in the goal one call at a time. *)
Ltac exec :=
  repeat first
    [ progress cbn
    | progress rewrite ?andb_false_r, ?andb_true_r
    | match goal with
      | |- context [h ?c ?w] => is_var w; destruct (h c w) as [? ?] eqn:?
      | |- context [match ?x with Ok _ => _ | Err _ => _ end] => is_var x; destruct x
      | |- context [match ?x with Some _ => _ | None => _ end] => is_var x; destruct x
      | |- context [let (_, _) := ?x in _] => is_var x; destruct x
      | |- context [if negb ?x then _ else _] => is_var x; destruct x
      | |- context [if ?b then _ else _] => destruct b eqn:?
      end ].

Ltac finished :=
  let Heq := fresh "Heq" in
  intros Heq; injection Heq as <- <- <-; cbn.

(** Unfold [Get] according to the kind of the reference; the parser's
    answer is still to be split on. *)
Ltac by_kind rawRef :=
  unfold Get, getDocker, getPodman, trimmed, kind_of;
  destruct (isDocker rawRef) eqn:?; [ | destruct (isPodman rawRef) eqn:? ].

(** X2. Whatever the kind of the reference and the pull mode, a reference
    whose text does not parse makes [Get] fail with the parser's error,
    wrapped with the text that went to the parser (the reference without
    its daemon prefix), before any call. *)
Theorem Get_parse_failure_makes_no_call :
  forall (w : W) (rawRef : string) (plats : list Platform) (pullMode : PullMode)
         (e : error),
    ParseDockerRef (trimmed rawRef) = Err e ->
    run h (Get ParseDockerRef Named_String rawRef plats pullMode) w
      = (Err (Wrapf (FailedToParse (trimmed rawRef)) e), [], w).
Proof.
  intros w rawRef plats pullMode e.
  by_kind rawRef.
  all: intros Hparse; rewrite Hparse; reflexivity.
Qed.

(** X3. A daemon prefix in front of a text [x] that parses: [Get] reads the
    daemon's environment variable first and then works on the command
    [binary save name], where [name] is how the parser writes [x] (the
    prefix is gone) and [binary] is the variable's value, or the daemon's
    default name when the variable is empty. *)
Theorem Get_daemon_strips_prefix :
  forall (w w' : W) (k : kind) (x : string) (plats : list Platform)
         (pullMode : PullMode) (ref : Named) (r : result Image) (t : list io),
    k <> Registry ->
    ParseDockerRef x = Ok ref ->
    run h (Get ParseDockerRef Named_String (prefix_of k ++ x) plats pullMode) w
      = (r, t, w') ->
    exists override : string,
      let docker := binary override (default_binary k) in
      let Args := save_args docker (Named_String ref) in
      getenvs t = [override]
      /\ firstn 3 (calls t)
         = [ Getenv (env_key k);
             Infof (LogLoading (Named_String ref) docker);
             StdoutPipe Args ]
      /\ forall c, In c (calls t) -> is_subprocess c = true ->
                   c = StdoutPipe Args \/ c = Start Args \/ c = Close Args.
Proof.
  intros w w' k x plats pullMode ref r t Hk Hparse.
  destruct (kind_of_prefixed x Hk) as (Hkind & Htrim).
  unfold Get, getDocker, getPodman.
  unfold trimmed in Htrim. rewrite Hkind in Htrim.
  unfold kind_of in Hkind.
  destruct k; [| |congruence].
  all: cbn [prefix_of] in *.
  - destruct (isDocker (dockerImagePrefix ++ x)); [|destruct (isPodman _); discriminate].
    rewrite Htrim, Hparse.
    exec; finished.
    all: eexists; unfold binary, save_args.
    all: match goal with H : String.eqb _ _ = _ |- _ => rewrite H end.
    all: cbn; split; [reflexivity | split; [reflexivity | ]].
    all: intros c Hin Hsub; cbn in Hin.
    all: repeat (destruct Hin as [<- | Hin]; [first [discriminate Hsub | auto] | ]).
    all: contradiction.
  - destruct (isDocker (podmanImagePrefix ++ x)); [discriminate|].
    destruct (isPodman (podmanImagePrefix ++ x)); [|discriminate].
    rewrite Htrim, Hparse.
    exec; finished.
    all: eexists; unfold binary, save_args.
    all: match goal with H : String.eqb _ _ = _ |- _ => rewrite H end.
    all: cbn; split; [reflexivity | split; [reflexivity | ]].
    all: intros c Hin Hsub; cbn in Hin.
    all: repeat (destruct Hin as [<- | Hin]; [first [discriminate Hsub | auto] | ]).
    all: contradiction.
Qed.

(** X4. A daemon reference never goes to the registry, whatever the pull
    mode: [Get] makes no registry pull, starts at most one subprocess,
    imports at most once, asks the store at most once and checks
    availability at most once; and the pull mode makes no difference to
    the run. *)
Theorem Get_daemon_never_pulls :
  forall (w w' : W) (rawRef : string) (plats : list Platform)
         (pullMode pullMode' : PullMode) (r : result Image) (t : list io),
    kind_of rawRef <> Registry ->
    run h (Get ParseDockerRef Named_String rawRef plats pullMode) w = (r, t, w') ->
    count is_pull (calls t) = 0%nat
    /\ (count is_start (calls t) <= 1)%nat
    /\ (count is_import (calls t) <= 1)%nat
    /\ (count is_lookup (calls t) <= 1)%nat
    /\ (count is_check (calls t) <= 1)%nat
    /\ run h (Get ParseDockerRef Named_String rawRef plats pullMode') w = (r, t, w').
Proof.
  intros w w' rawRef plats pullMode pullMode' r t Hkind.
  revert Hkind. by_kind rawRef.
  3: congruence.
  all: intros _.
  all: destruct (ParseDockerRef _) as [ref|pe].
  all: exec; finished.
  all: repeat split; first [reflexivity | lia].
Qed.

(** X5. A registry reference never touches a daemon, whatever the pull mode:
    [Get] reads no environment variable, makes no pipe, starts and closes
    nothing, decompresses nothing and imports no archive. *)
Theorem Get_registry_never_uses_daemon :
  forall (w w' : W) (rawRef : string) (plats : list Platform)
         (pullMode : PullMode) (r : result Image) (t : list io),
    kind_of rawRef = Registry ->
    run h (Get ParseDockerRef Named_String rawRef plats pullMode) w = (r, t, w') ->
    count is_getenv (calls t) = 0%nat
    /\ count is_subprocess (calls t) = 0%nat
    /\ count is_decompress (calls t) = 0%nat
    /\ count is_import (calls t) = 0%nat.
Proof.
  intros w w' rawRef plats pullMode r t Hkind.
  revert Hkind. by_kind rawRef.
  1, 2: congruence.
  intros _.
  destruct (ParseDockerRef _) as [ref|pe].
  all: unfold Get_switch, Get_image, Get_platforms.
  all: exec; finished.
  all: repeat split; reflexivity.
Qed.

(** X6. [Get] on a registry reference never loops: in any run it asks the
    store at most twice, checks availability at most once and pulls at
    most three times under "always" and at most twice otherwise. *)
Theorem Get_registry_call_bounds :
  forall (w w' : W) (rawRef : string) (plats : list Platform)
         (pullMode : PullMode) (r : result Image) (t : list io),
    kind_of rawRef = Registry ->
    run h (Get ParseDockerRef Named_String rawRef plats pullMode) w = (r, t, w') ->
    (count is_lookup (calls t) <= 2)%nat
    /\ (count is_check (calls t) <= 1)%nat
    /\ (count is_pull (calls t) <= if String.eqb pullMode PullAlways then 3 else 2)%nat
    /\ count is_pull (calls t) = count is_transfer (calls t).
Proof.
  intros w w' rawRef plats pullMode r t Hkind.
  revert Hkind. by_kind rawRef.
  1, 2: congruence.
  intros _.
  destruct (ParseDockerRef _) as [ref|pe].
  all: unfold Get_switch, Get_image, Get_platforms.
  all: exec; finished.
  all: repeat split; first [reflexivity | lia].
Qed.

(** X7. A record that [Get] returns for a registry reference is the one the
    store gave at its last lookup, and its availability has been checked,
    once, for the requested platforms, without error; the check said
    available, or else the pull mode is not "never" and the last pull
    succeeded. *)
Theorem Get_registry_success_is_checked :
  forall (w w' : W) (rawRef : string) (plats : list Platform)
         (pullMode : PullMode) (img : Image) (t : list io),
    kind_of rawRef = Registry ->
    run h (Get ParseDockerRef Named_String rawRef plats pullMode) w = (Ok img, t, w') ->
    exists (name : string) (available : bool),
      name_of ParseDockerRef Named_String rawRef = Some name
      /\ last_error (lookups t) = Some (Ok img)
      /\ last_error (before_first is_check (calls t)) = Some (ImageStoreGet name)
      /\ In (ImagesCheck (Target img) (platforms_Any plats)) (calls t)
      /\ checks t = [(available, None)]
      /\ (available = true
          \/ (pullMode <> PullNever /\ last_error (pulls t) = Some None)).
Proof.
  intros w w' rawRef plats pullMode img t Hkind.
  unfold name_of.
  revert Hkind. by_kind rawRef.
  1, 2: congruence.
  intros _.
  destruct (ParseDockerRef _) as [ref|pe].
  all: unfold Get_switch, Get_image, Get_platforms.
  all: exec.
  all: intros Heq; try discriminate Heq.
  all: injection Heq as <- <- <-; cbn.
  all: eexists; eexists.
  all: split; [reflexivity | split; [reflexivity | split; [reflexivity | ]]].
  all: split; [auto 20 | split; [reflexivity | ]].
  all: first [ left; reflexivity
             | right; split; [apply String.eqb_neq; assumption | reflexivity] ].
Qed.

(** X8. A record that a daemon load returns has gone through every step:
    the calls are those of [load_calls], the subprocess started, both
    steps of the load and the closing of the pipe succeeded, the store
    gave the record, and the availability check said available. *)
Theorem loadDocker_success_is_complete :
  forall (w w' : W) (docker name : string) (plats : list Platform)
         (img : Image) (t : list io),
    run h (loadDocker docker name plats) w = (Ok img, t, w') ->
    calls t = load_calls docker name plats img
    /\ pipes t = [None]
    /\ starts t = [None]
    /\ loads t = [None; None]
    /\ hd_error (closes t) = Some None
    /\ lookups t = [Ok img]
    /\ checks t = [(true, None)].
Proof.
  intros w w' docker name plats img t.
  unfold loadDocker, Load.
  exec.
  all: intros Heq; try discriminate Heq.
  all: injection Heq as <- <- <-; cbn.
  all: repeat split; reflexivity.
Qed.


(** X9. The pipe of a daemon load is closed on every path: once
    [StdoutPipe] has succeeded, the last call of [loadDocker] is the
    closing of that pipe, however the load ends; when [StdoutPipe] fails,
    its error is returned as it is and nothing is started or closed. *)
Theorem loadDocker_closes_the_pipe :
  forall (w w' : W) (docker name : string) (plats : list Platform)
         (r : result Image) (t : list io),
    run h (loadDocker docker name plats) w = (r, t, w') ->
    exists perr : option error,
      pipes t = [perr]
      /\ match perr with
         | None =>
             last_error (calls t) = Some (Close (save_args docker name))
             /\ (1 <= count is_close (calls t) <= 2)%nat
         | Some e =>
             r = Err e
             /\ count is_close (calls t) = 0%nat
             /\ count is_start (calls t) = 0%nat
         end.
Proof.
  intros w w' docker name plats r t.
  unfold loadDocker, Load.
  exec; finished.
  all: eexists; split; [reflexivity | cbn].
  all: repeat split; first [reflexivity | lia].
Qed.

(** X10. In every run of [Get], each use of the transferrer has a
    [ProgressHandler] just before it and the matching [ProgressDone] just
    after it, also when the transfer fails; the progress display is
    neither left open nor started without a transfer. *)
Theorem Get_progress_is_bracketed :
  forall (w w' : W) (rawRef : string) (plats : list Platform)
         (pullMode : PullMode) (r : result Image) (t : list io),
    run h (Get ParseDockerRef Named_String rawRef plats pullMode) w = (r, t, w') ->
    bracketed (calls t) = true.
Proof.
  intros w w' rawRef plats pullMode r t.
  by_kind rawRef.
  all: destruct (ParseDockerRef _) as [ref|pe].
  all: unfold Get_switch, Get_image, Get_platforms.
  all: exec; finished.
  all: reflexivity.
Qed.

(** X11. "always" is one pull followed by "missing": [Get] under "always"
    logs and pulls; when that pull fails it returns the pull error
    wrapped, and when it succeeds the rest of the run is the run of [Get]
    under "missing" from the world the pull left. *)
Theorem Get_always_is_pull_then_missing :
  forall (w : W) (rawRef : string) (plats : list Platform) (name : string),
    kind_of rawRef = Registry ->
    name_of ParseDockerRef Named_String rawRef = Some name ->
    run h (Get ParseDockerRef Named_String rawRef plats PullAlways) w
    = let '(stop, t1, w1) :=
        run h (perform (Infof (LogPulling name)) ;; Pull name plats) w in
      match stop with
      | Some e => (Err (Wrapf (FailedToPull name) e), t1, w1)
      | None =>
          let '(r, t2, w2) :=
            run h (Get ParseDockerRef Named_String rawRef plats PullMissing) w1 in
          (r, (t1 ++ t2)%list, w2)
      end.
Proof.
  intros w rawRef plats name Hkind Hname.
  destruct (registry_dispatch _ _ _ Hkind Hname) as (Hd & Hp & ref & Hparse & Hstr).
  unfold Get. rewrite Hd, Hp, Hparse, Hstr.
  exec.
  all: reflexivity.
Qed.


Lemma unwraps_to_refl : forall e : error, unwraps_to e e.
Proof.
  destruct e; left; reflexivity.
Qed.

(** X13. Every error of [Get] has a known origin: it is the parser's
    error wrapped, or the unknown-pull-mode error, or the lacks-blobs
    error (which is [ErrUnavailable]) after a check that said unavailable
    without error, or it is an error that a collaborator answered in this
    run, as it is or inside one or two [fmt.Errorf] wrappings; in that
    last case unwrapping [Get]'s error leads to that cause, so
    [errors.Is] gives the same answer on both, for every target. *)
Theorem Get_error_keeps_its_cause :
  forall (w w' : W) (rawRef : string) (plats : list Platform)
         (pullMode : PullMode) (e : error) (t : list io),
    run h (Get ParseDockerRef Named_String rawRef plats pullMode) w = (Err e, t, w') ->
    (exists pe, ParseDockerRef (trimmed rawRef) = Err pe
                /\ e = Wrapf (FailedToParse (trimmed rawRef)) pe /\ t = [])
    \/ (e = Errorf (UnknownPullMode pullMode) /\ t = [])
    \/ (exists name, e = Wrapf (LacksBlobs name) (Sentinel ErrUnavailable)
                     /\ checks t = [(false, None)])
    \/ (exists cause,
          In cause (failures t)
          /\ (e = cause
              \/ (exists m, e = Wrapf m cause)
              \/ (exists m m', e = Wrapf m (Wrapf m' cause)))
          /\ unwraps_to e cause
          /\ forall target, chain_Is e target = chain_Is cause target).
Proof.
  intros w w' rawRef plats pullMode e t.
  by_kind rawRef.
  all: destruct (ParseDockerRef _) as [ref|pe] eqn:Hparse.
  all: unfold Get_switch, Get_image, Get_platforms.
  all: exec.
  all: intros Heq; try discriminate Heq.
  all: injection Heq as <- <- <-; cbn.
  all: first
         [ left; eexists; repeat split; reflexivity
         | right; left; split; reflexivity
         | right; right; left; eexists; split; reflexivity
         | right; right; right;
           match goal with
           | |- exists cause, _ /\ (Wrapf _ (Wrapf _ ?c) = _ \/ _) /\ _ =>
               exists c;
               solve [ split; [cbn; auto 20
                             | split; [right; right; eexists; eexists; reflexivity
                                      | split; [cbn; repeat first [apply unwraps_to_refl | right]
                                               | intros; reflexivity]]] ]
           end
         | right; right; right;
           match goal with
           | |- exists cause, _ /\ (Wrapf _ ?c = _ \/ _) /\ _ =>
               exists c;
               solve [ split; [cbn; auto 20
                             | split; [right; left; eexists; reflexivity
                                      | split; [cbn; repeat first [apply unwraps_to_refl | right]
                                               | intros; reflexivity]]] ]
           end
         | right; right; right;
           match goal with
           | |- exists cause, _ /\ (?c = _ \/ _) /\ _ =>
               exists c;
               solve [ split; [cbn; auto 20
                             | split; [left; reflexivity
                                      | split; [cbn; repeat first [apply unwraps_to_refl | right]
                                               | intros; reflexivity]]] ]
           end ].
Qed.

End More.

(** ** More on [readerWithEOF.Read] *)

(** X14. Whatever the embedded reader does, [readerWithEOF.Read] never
    returns an error that is [os.ErrClosed], and it passes on the buffer,
    the count and the reader's new state as they are. *)
Theorem readerWithEOF_Read_never_closed :
  forall (S : Type) (Reader_Read : io_Reader S) (r : S) (p : list Byte.byte),
    errors.Is (rd_err (fst (readerWithEOF_Read Reader_Read r p))) ErrClosed = false
    /\ rd_n (fst (readerWithEOF_Read Reader_Read r p)) = rd_n (fst (Reader_Read r p))
    /\ rd_buf (fst (readerWithEOF_Read Reader_Read r p)) = rd_buf (fst (Reader_Read r p))
    /\ snd (readerWithEOF_Read Reader_Read r p) = snd (Reader_Read r p).
Proof.
  intros S Reader_Read r p.
  unfold readerWithEOF_Read.
  destruct (Reader_Read r p) as [res r']. cbn.
  destruct (errors.Is (rd_err res) ErrClosed) eqn:Hclosed; cbn; auto.
Qed.

(** X15. Wrapping a reader twice is the same as wrapping it once. *)
Theorem readerWithEOF_Read_idempotent :
  forall (S : Type) (Reader_Read : io_Reader S) (r : S) (p : list Byte.byte),
    readerWithEOF_Read (readerWithEOF_Read Reader_Read) r p
    = readerWithEOF_Read Reader_Read r p.
Proof.
  intros S Reader_Read r p.
  unfold readerWithEOF_Read.
  destruct (Reader_Read r p) as [res r']. cbn.
  destruct (errors.Is (rd_err res) ErrClosed) eqn:Hclosed; cbn.
  - reflexivity.
  - rewrite Hclosed. reflexivity.
Qed.

(** ** The further properties on sample runs *)

Lemma Get_parse_failure_makes_no_call_witness :
  run_bad_reference
    = (Err (Wrapf (FailedToParse "MyImage")
              (Sentinel (ErrOther "invalid reference format"))),
       [], daemon_world 0).
Proof.
  apply (@Get_parse_failure_makes_no_call string sample_ParseDockerRef sample_String
           World scripted (daemon_world 0) "docker://MyImage" both PullAlways).
  reflexivity.
Defined.

Lemma Get_daemon_strips_prefix_witness :
  exists override : string,
    let docker := binary override "podman" in
    let Args := save_args docker myimage in
    getenvs (transcript run_podman) = [override]
    /\ firstn 3 (calls (transcript run_podman))
       = [ Getenv "PODMAN"; Infof (LogLoading myimage docker); StdoutPipe Args ]
    /\ forall c, In c (calls (transcript run_podman)) -> is_subprocess c = true ->
                 c = StdoutPipe Args \/ c = Start Args \/ c = Close Args.
Proof.
  apply (@Get_daemon_strips_prefix string sample_ParseDockerRef sample_String
           World scripted podman_world (final run_podman) PodmanDaemon
           "myimage:latest" [linux_amd64] PullNever myimage
           (outcome run_podman)).
  - intro H; discriminate H.
  - reflexivity.
  - reflexivity.
Defined.

Lemma Get_daemon_never_pulls_witness :
  (count is_pull (calls (transcript run_podman)) = 0%nat
   /\ (count is_start (calls (transcript run_podman)) <= 1)%nat
   /\ (count is_import (calls (transcript run_podman)) <= 1)%nat
   /\ (count is_lookup (calls (transcript run_podman)) <= 1)%nat
   /\ (count is_check (calls (transcript run_podman)) <= 1)%nat
   /\ run scripted (sample_Get "podman://myimage:latest" [linux_amd64] PullAlways)
        podman_world
      = (outcome run_podman, transcript run_podman, final run_podman))
  /\ outcome run_podman = Ok (sample_manifest myimage)
  /\ In (Start ["/opt/podman/bin/podman"; "save"; myimage])
        (calls (transcript run_podman)).
Proof.
  split.
  - apply (@Get_daemon_never_pulls string sample_ParseDockerRef sample_String
             World scripted podman_world (final run_podman)
             "podman://myimage:latest" [linux_amd64] PullNever PullAlways).
    + intro H; discriminate H.
    + reflexivity.
  - split; [reflexivity | cbn; auto 20].
Defined.

Lemma Get_registry_never_uses_daemon_witness :
  count is_getenv (calls (transcript run_always_three_pulls)) = 0%nat
  /\ count is_subprocess (calls (transcript run_always_three_pulls)) = 0%nat
  /\ count is_decompress (calls (transcript run_always_three_pulls)) = 0%nat
  /\ count is_import (calls (transcript run_always_three_pulls)) = 0%nat.
Proof.
  apply (@Get_registry_never_uses_daemon string sample_ParseDockerRef sample_String
           World scripted
           (world [None; None; None] [Err (absent app); Ok (sample_image app)]
              [(false, None)] 0)
           (final run_always_three_pulls) app both PullAlways
           (outcome run_always_three_pulls)).
  - reflexivity.
  - reflexivity.
Defined.

Lemma Get_registry_call_bounds_witness :
  ((count is_lookup (calls (transcript run_always_three_pulls)) <= 2)%nat
   /\ (count is_check (calls (transcript run_always_three_pulls)) <= 1)%nat
   /\ (count is_pull (calls (transcript run_always_three_pulls)) <= 3)%nat
   /\ count is_pull (calls (transcript run_always_three_pulls))
      = count is_transfer (calls (transcript run_always_three_pulls)))
  /\ count is_pull (calls (transcript run_always_three_pulls)) = 3%nat
  /\ count is_lookup (calls (transcript run_always_three_pulls)) = 2%nat
  /\ outcome run_always_three_pulls = Ok (sample_image app).
Proof.
  split.
  - apply (@Get_registry_call_bounds string sample_ParseDockerRef sample_String
             World scripted
             (world [None; None; None] [Err (absent app); Ok (sample_image app)]
                [(false, None)] 0)
             (final run_always_three_pulls) app both PullAlways
             (outcome run_always_three_pulls)).
    + reflexivity.
    + reflexivity.
  - repeat split; reflexivity.
Defined.

Lemma Get_registry_success_is_checked_witness :
  exists (name : string) (available : bool),
    name_of sample_ParseDockerRef sample_String app = Some name
    /\ last_error (lookups (transcript run_missing_unavailable))
       = Some (Ok (sample_image app))
    /\ last_error (before_first is_check (calls (transcript run_missing_unavailable)))
       = Some (ImageStoreGet name)
    /\ In (ImagesCheck (Target (sample_image app)) (platforms_Any both))
          (calls (transcript run_missing_unavailable))
    /\ checks (transcript run_missing_unavailable) = [(available, None)]
    /\ (available = true
        \/ (PullMissing <> PullNever
            /\ last_error (pulls (transcript run_missing_unavailable)) = Some None)).
Proof.
  apply (@Get_registry_success_is_checked string sample_ParseDockerRef sample_String
           World scripted
           (world [None] [Ok (sample_image app)] [(false, None)] 0)
           (final run_missing_unavailable) app both PullMissing (sample_image app)).
  - reflexivity.
  - reflexivity.
Defined.

Lemma loadDocker_success_is_complete_witness :
  calls (transcript run_load)
    = load_calls "docker" myimage [linux_amd64] (sample_manifest myimage)
  /\ pipes (transcript run_load) = [None]
  /\ starts (transcript run_load) = [None]
  /\ loads (transcript run_load) = [None; None]
  /\ hd_error (closes (transcript run_load)) = Some None
  /\ lookups (transcript run_load) = [Ok (sample_manifest myimage)]
  /\ checks (transcript run_load) = [(true, None)].
Proof.
  apply (@loadDocker_success_is_complete World scripted (daemon_world 0)
           (final run_load) "docker" myimage [linux_amd64]).
  reflexivity.
Defined.


Lemma loadDocker_closes_the_pipe_witness :
  (exists perr : option error,
     pipes (transcript run_load) = [perr]
     /\ match perr with
        | None =>
            last_error (calls (transcript run_load))
              = Some (Close (save_args "docker" myimage))
            /\ (1 <= count is_close (calls (transcript run_load)) <= 2)%nat
        | Some e =>
            outcome run_load = Err e
            /\ count is_close (calls (transcript run_load)) = 0%nat
            /\ count is_start (calls (transcript run_load)) = 0%nat
        end)
  /\ (exists perr : option error,
        pipes (transcript run_load_no_pipe) = [perr]
        /\ match perr with
           | None =>
               last_error (calls (transcript run_load_no_pipe))
                 = Some (Close (save_args "docker" myimage))
               /\ (1 <= count is_close (calls (transcript run_load_no_pipe)) <= 2)%nat
           | Some e =>
               outcome run_load_no_pipe = Err e
               /\ count is_close (calls (transcript run_load_no_pipe)) = 0%nat
               /\ count is_start (calls (transcript run_load_no_pipe)) = 0%nat
           end).
Proof.
  split.
  - apply (@loadDocker_closes_the_pipe World scripted (daemon_world 0)
             (final run_load) "docker" myimage [linux_amd64]).
    reflexivity.
  - apply (@loadDocker_closes_the_pipe World scripted
             (mkWorld (fun _ => "") (Some no_pipe) None None None false
                [] [] [] NotStarted 0)
             (final run_load_no_pipe) "docker" myimage [linux_amd64]).
    reflexivity.
Defined.

Lemma Get_progress_is_bracketed_witness :
  bracketed (calls (transcript run_always_three_pulls)) = true
  /\ count is_transfer (calls (transcript run_always_three_pulls)) = 3%nat.
Proof.
  split.
  - apply (@Get_progress_is_bracketed string sample_ParseDockerRef sample_String
             World scripted
             (world [None; None; None] [Err (absent app); Ok (sample_image app)]
                [(false, None)] 0)
             (final run_always_three_pulls) app both PullAlways
             (outcome run_always_three_pulls)).
    reflexivity.
  - reflexivity.
Defined.

Lemma Get_always_is_pull_then_missing_witness :
  run_always_three_pulls
  = let '(stop, t1, w1) :=
      run scripted (perform (Infof (LogPulling app)) ;; Pull app both)
        (world [None; None; None] [Err (absent app); Ok (sample_image app)]
           [(false, None)] 0) in
    match stop with
    | Some e => (Err (Wrapf (FailedToPull app) e), t1, w1)
    | None =>
        let '(r, t2, w2) := run scripted (sample_Get app both PullMissing) w1 in
        (r, (t1 ++ t2)%list, w2)
    end.
Proof.
  apply (@Get_always_is_pull_then_missing string sample_ParseDockerRef sample_String
           World scripted
           (world [None; None; None] [Err (absent app); Ok (sample_image app)]
              [(false, None)] 0)
           app both app).
  - reflexivity.
  - reflexivity.
Defined.


Lemma Get_error_keeps_its_cause_witness :
  exists cause,
    In cause (failures (transcript run_missing_registry_down))
    /\ outcome run_missing_registry_down
       = Err (Wrapf (FailedToPull app) (Wrapf (FailedToPull app) cause))
    /\ cause = registry_down.
Proof.
  destruct (@Get_error_keeps_its_cause string sample_ParseDockerRef sample_String
              World scripted (world [Some registry_down] [Err (absent app)] [] 0)
              (final run_missing_registry_down) app both PullMissing
              (Wrapf (FailedToPull app) (Wrapf (FailedToPull app) registry_down))
              (transcript run_missing_registry_down) eq_refl)
    as [(pe & Hpe & _) | [(Hmode & _) | [(name & Hlacks & _) | (cause & Hin & Hshape & _)]]].
  - discriminate Hpe.
  - discriminate Hmode.
  - discriminate Hlacks.
  - destruct Hshape as [Hc | [(m & Hc) | (m & m' & Hc)]].
    + exists (absent app). cbn in Hin. subst cause.
      destruct Hin as [Hin | [Hin | []]]; discriminate Hin.
    + exists registry_down. cbn in Hin. injection Hc as _ Hc. subst cause.
      destruct Hin as [Hin | [Hin | []]]; discriminate Hin.
    + exists registry_down. repeat split. cbn; auto.
Defined.

Lemma readerWithEOF_Read_other_witness :
  readerWithEOF_Read open_pipe tt [] = open_pipe tt [].
Proof.
  apply (@readerWithEOF_Read_other unit open_pipe tt []).
  reflexivity.
Defined.
